(** * Attendance reconciliation (att.py): a shallow embedding and its properties

    The development follows the layout of [att.py]:
    - [Timestamp]: the part of pandas' [Timestamp] the program uses
    (calendar fields, [dayofweek], [strftime], adding whole days);
    - [make_workdays], [get_next_workday]: the calendar generator and the
    plain weekday stepping;
    - [read_abnormal_info]: the duration splitter applied to the anomaly frame;
    - [general_blank_dataframe], [general_final_info]: grid, left joins and the
    two derived columns;
    - [_general_stat] / [write_to_excel]: the per-employee aggregation.

    Data frames are lists of records (row order matters everywhere: joins keep
    the order of the left frame, [drop_duplicates] keeps first occurrences and
    the aggregation concatenates in row order).  Missing cells ([NaN], [NaT],
    [None]) are [option]. *)

From Stdlib Require Import ZArith List Bool String Ascii Lia.
From Stdlib Require Import QArith Qcanon Qround.
From Stdlib Require Import Sorted Permutation.
From Equations Require Import Equations.
Import ListNotations.
Local Open Scope Z_scope.

(** ** Timestamps *)

Module Timestamps.

(** A pandas [Timestamp] is a count of nanoseconds since 1970-01-01T00:00
    (the range check of the 64-bit representation is left out: dates are
    unbounded integers here). [NaT] is [None] of [option Timestamp]. *)
Definition Timestamp := Z.

Definition NS_PER_SEC : Z := 1000000000.
Definition NS_PER_MINUTE : Z := 60 * NS_PER_SEC.
Definition NS_PER_HOUR : Z := 3600 * NS_PER_SEC.
Definition NS_PER_DAY : Z := 86400 * NS_PER_SEC.

(** [timedelta(days=n)] *)
Definition timedelta_days (n : Z) : Z := n * NS_PER_DAY.

(** Days since the epoch, and the nanoseconds elapsed within the day. *)
Definition day_number (ts : Timestamp) : Z := ts / NS_PER_DAY.
Definition time_of_day (ts : Timestamp) : Z := ts mod NS_PER_DAY.

(** [dayofweek]: Monday is 0, Sunday is 6; 1970-01-01 was a Thursday. *)
Definition dayofweek (ts : Timestamp) : Z := (day_number ts + 3) mod 7.

Definition hour (ts : Timestamp) : Z := time_of_day ts / NS_PER_HOUR.
Definition minute (ts : Timestamp) : Z := (time_of_day ts / NS_PER_MINUTE) mod 60.
Definition second (ts : Timestamp) : Z := (time_of_day ts / NS_PER_SEC) mod 60.

(** The proleptic Gregorian calendar, by the usual era arithmetic
    (an era is 400 years, 146097 days, starting on a 1st of March). *)
Definition days_from_civil (y m d : Z) : Z :=
  let y' := if m <=? 2 then y - 1 else y in
  let era := y' / 400 in
  let yoe := y' - era * 400 in
  let mp := if 2 <? m then m - 3 else m + 9 in
  let doy := (153 * mp + 2) / 5 + d - 1 in
  let doe := yoe * 365 + yoe / 4 - yoe / 100 + doy in
  era * 146097 + doe - 719468.

Definition civil_from_days (z : Z) : Z * Z * Z :=
  let z' := z + 719468 in
  let era := z' / 146097 in
  let doe := z' - era * 146097 in
  let yoe := (doe - doe / 1460 + doe / 36524 - doe / 146096) / 365 in
  let doy := doe - (365 * yoe + yoe / 4 - yoe / 100) in
  let mp := (5 * doy + 2) / 153 in
  let d := doy - (153 * mp + 2) / 5 + 1 in
  let m := if mp <? 10 then mp + 3 else mp - 9 in
  let y := yoe + era * 400 in
  ((if m <=? 2 then y + 1 else y), m, d).

Definition year (ts : Timestamp) : Z := fst (fst (civil_from_days (day_number ts))).
Definition month (ts : Timestamp) : Z := snd (fst (civil_from_days (day_number ts))).
Definition day (ts : Timestamp) : Z := snd (civil_from_days (day_number ts)).

(** [pd.Timestamp(f'{year}-{month}-{day}')]: midnight of a calendar date. *)
Definition of_date (y m d : Z) : Timestamp := days_from_civil y m d * NS_PER_DAY.

Definition is_leap_year (y : Z) : bool :=
  ((y mod 4 =? 0) && negb (y mod 100 =? 0)) || (y mod 400 =? 0).

(** [pd.Period(f'{year}-{month}').daysinmonth], for a month from 1 to 12
    (pandas raises on any other; the program passes the month of a
    timestamp). *)
Definition daysinmonth (y m : Z) : Z :=
  if m =? 2 then (if is_leap_year y then 29 else 28)
  else if (m =? 4) || (m =? 6) || (m =? 9) || (m =? 11) then 30
  else 31.

(** [pd.date_range(start, periods=n)] with the default daily frequency. *)
Fixpoint date_range (start : Timestamp) (periods : nat) : list Timestamp :=
  match periods with
  | O => []
  | S n => start :: date_range (start + timedelta_days 1) n
  end.

(** *** strftime *)

Definition digit (n : Z) : ascii := ascii_of_nat (48 + Z.to_nat (n mod 10)).

Definition pad2 (n : Z) : string :=
  String (digit (n / 10)) (String (digit n) EmptyString).

Definition pad4 (n : Z) : string :=
  String (digit (n / 1000)) (String (digit (n / 100)) (pad2 n)).

(** [strftime("%Y-%m-%d")] *)
Definition strftime_Ymd (ts : Timestamp) : string :=
  (pad4 (year ts) ++ "-" ++ pad2 (month ts) ++ "-" ++ pad2 (day ts))%string.

(** [strftime('%m/%d')] *)
Definition strftime_md (ts : Timestamp) : string :=
  (pad2 (month ts) ++ "/" ++ pad2 (day ts))%string.

(** [strftime('%m/%d-%H:%M')] *)
Definition strftime_md_HM (ts : Timestamp) : string :=
  (strftime_md ts ++ "-" ++ pad2 (hour ts) ++ ":" ++ pad2 (minute ts))%string.

(** Midnight of the date [y-m-d] plus a time of day. *)
Definition make (y m d hh mm ss : Z) : Timestamp :=
  of_date y m d + hh * NS_PER_HOUR + mm * NS_PER_MINUTE + ss * NS_PER_SEC.

End Timestamps.

Import Timestamps.

(** Python's [x in xs] on a list of strings. *)
Definition str_in (s : string) (l : list string) : bool :=
  existsb (String.eqb s) l.

(** ** Calendar generator and weekday stepping *)

Section Calendar.

(** [conf.WORKDAYS] and [conf.HOLIDAYS]: the configured extra workdays and
    holidays, lists of ["%Y-%m-%d"] strings. The module [conf] is static
    configuration; the program only tests membership in the two lists. *)
Variable WORKDAYS HOLIDAYS : list string.

(** One iteration of the loop of [make_workdays]: the two [continue]
    guards, then [result.append(_day)]. *)
Definition make_workdays_step (max_date : option Timestamp)
    (result : list Timestamp) (_day : Timestamp) : list Timestamp :=
  let str_day := strftime_Ymd _day in
  if negb (str_in str_day WORKDAYS)
     && ((5 <=? dayofweek _day) || str_in str_day HOLIDAYS)
  then result
  else if match max_date with
          | Some m => m <? _day
          | None => false
          end
  then result
  else result ++ [_day].

Definition make_workdays (year month : Z) (max_date : option Timestamp)
    : list Timestamp :=
  let days_of_month := daysinmonth year month in
  let workdays := date_range (of_date year month 1) (Z.to_nat days_of_month) in
  fold_left (make_workdays_step max_date) workdays [].

End Calendar.

Definition days_to_sunday (ts : Timestamp) : nat := Z.to_nat (6 - dayofweek ts).

Definition inspect {A : Type} (a : A) : {b : A | a = b} := exist _ a eq_refl.

(** The inner [next_workday] of [get_next_workday]: the [while True] loop
    adds one day and leaves as soon as the weekday is Monday to Friday. It
    terminates because a day that fails the test is a Saturday or a Sunday. *)
Equations next_workday (date : Timestamp) : Timestamp
  by wf (days_to_sunday date) lt :=
  next_workday date
    with inspect (dayofweek (date + timedelta_days 1) <? 5) := {
    | exist _ true _ => date + timedelta_days 1
    | exist _ false H => next_workday (date + timedelta_days 1) }.
Next Obligation.
  apply Z.ltb_ge in H.
  unfold days_to_sunday, dayofweek, day_number, timedelta_days in *.
  unfold NS_PER_DAY, NS_PER_SEC in *.
  Z.div_mod_to_equations. lia.
Qed.

(** [for i in range(days): date = next_workday(date)]; [range] of a
    non-positive number is empty, hence the [nat] counter. *)
Fixpoint get_next_workday_loop (date : Timestamp) (days : nat) : Timestamp :=
  match days with
  | O => date
  | S n => get_next_workday_loop (next_workday date) n
  end.

Definition get_next_workday (currdate : Timestamp) (days : Z) : Timestamp :=
  get_next_workday_loop currdate (Z.to_nat days).

(** ** Data frames *)

(** Python's [drop_duplicates()]: the first occurrence of every row is kept,
    in the order of the frame; [seen] holds the rows met so far. *)
Fixpoint drop_duplicates_from {A : Type} (eqb : A -> A -> bool)
    (seen : list A) (l : list A) : list A :=
  match l with
  | [] => []
  | x :: xs =>
      if existsb (eqb x) seen then drop_duplicates_from eqb seen xs
      else x :: drop_duplicates_from eqb (x :: seen) xs
  end.

Definition drop_duplicates {A : Type} (eqb : A -> A -> bool) (l : list A)
    : list A :=
  drop_duplicates_from eqb [] l.

(** [pd.merge(left, right, how='left', on=[...])]: the rows of [left] in
    their order; a row with no partner in [right] is kept once with missing
    cells, a row with several partners is repeated once per partner, in the
    order of [right]. *)
Definition merge_left {L R O : Type} (on : L -> R -> bool)
    (joined : L -> R -> O) (unmatched : L -> O)
    (left : list L) (right : list R) : list O :=
  flat_map (fun l =>
              match filter (on l) right with
              | [] => [unmatched l]
              | partners => map (joined l) partners
              end) left.

(** The punch frame returned by [read_att_info]:
    columns [name], [date], [onduty], [offduty]. *)
Record AttRow : Type := mkAtt {
  att_name : string;
  att_date : Timestamp;
  att_onduty : option Timestamp;
  att_offduty : option Timestamp }.

(** The frames returned by [read_abnormal_info] and [read_offwork_info]:
    columns [name], [date], [type], [time]. The [time] column is float64;
    the program only compares it with 8, divides it by 8 (exact in binary
    floating point) and rounds up, so a finite value is the rational it
    denotes and [NaN] is [None]. *)
Record AbnRow : Type := mkAbn {
  abn_name : string;
  abn_date : Timestamp;
  abn_type : string;
  abn_time : option Qc }.

(** A row of the grid after the two joins:
    [name], [date], [onduty], [offduty], [type], [time]. *)
Record Joined : Type := mkJoined {
  j_name : string;
  j_date : Timestamp;
  j_onduty : option Timestamp;
  j_offduty : option Timestamp;
  j_type : option string;
  j_time : option Qc }.

(** A row of the reconciled table: the joined row and the two derived
    columns [chidao] (late / early) and [abn] (missing punch). *)
Record Row : Type := mkRow {
  r_joined : Joined;
  r_chidao : option string;
  r_abn : option string }.

Definition r_name (r : Row) : string := j_name (r_joined r).

Definition Qc_eqb (x y : Qc) : bool := Qeq_bool (this x) (this y).

Definition option_eqb {A : Type} (eqb : A -> A -> bool) (x y : option A)
    : bool :=
  match x, y with
  | Some a, Some b => eqb a b
  | None, None => true
  | _, _ => false
  end.

(** Row equality as [drop_duplicates] sees it: all columns equal, two missing
    cells counting as equal. *)
Definition AbnRow_eqb (x y : AbnRow) : bool :=
  String.eqb (abn_name x) (abn_name y)
  && (abn_date x =? abn_date y)
  && String.eqb (abn_type x) (abn_type y)
  && option_eqb Qc_eqb (abn_time x) (abn_time y).

(** ** Duration splitter *)

(** [df['time'] > 8]; a comparison with [NaN] is false. *)
Definition time_gt_8 (row : AbnRow) : bool :=
  match abn_time row with
  | Some time => negb (Qle_bool (this time) 8)
  | None => false
  end.

(** [ceil(time / 8)] *)
Definition ceil_div_8 (time : Qc) : Z := Qceiling (this time / 8).

(** The inner loop of [read_abnormal_info] for one row of [df_1]:
    [for j in range(ceil(time / 8) - 1)], a copy of the row dated
    [get_next_workday(date, j + 1)] with a missing [time]. *)
Definition extra_rows (row : AbnRow) : list AbnRow :=
  match abn_time row with
  | Some time =>
      map (fun j => mkAbn (abn_name row)
                          (get_next_workday (abn_date row) (Z.of_nat j + 1))
                          (abn_type row)
                          None)
          (seq 0 (Z.to_nat (ceil_div_8 time - 1)))
  | None => []
  end.

(** [read_abnormal_info], from the frame with the four selected columns on:
    the rows with [time > 8] are selected once ([df_1]), their extra rows are
    appended at the end of [df], then duplicates are dropped. *)
Definition read_abnormal_info (df : list AbnRow) : list AbnRow :=
  let df_1 := filter time_gt_8 df in
  let df := fold_left (fun df row => df ++ extra_rows row) df_1 df in
  drop_duplicates AbnRow_eqb df.

(** ** Reconciliation *)

(** [df['date'].max()]; [None] on an empty frame (pandas gives [NaT]). *)
Definition max_date_of (df : list AttRow) : option Timestamp :=
  match df with
  | [] => None
  | r :: rs => Some (fold_left Z.max (map att_date rs) (att_date r))
  end.

(** The [try] / [except] that opens [general_blank_dataframe]: [enddate] is
    the outcome of [pd.Timestamp(enddate)], [None] when it raises; the
    fallback is the latest date of the punch frame. An argument that
    [pd.Timestamp] turns into [NaT] without raising is not an input of this
    model: the program takes no fallback for it. *)
Definition resolve_max_date (enddate : option Timestamp) (df : list AttRow)
    : option Timestamp :=
  match enddate with
  | Some d => Some d
  | None => max_date_of df
  end.

Section Reconciliation.

Variable WORKDAYS HOLIDAYS : list string.

(** [general_blank_dataframe]. With an empty punch frame and no end date
    the program fails on the fields of [NaT] ([None] here). *)
Definition general_blank_dataframe (enddate : option Timestamp)
    (df : list AttRow) : option (list (string * Timestamp)) :=
  match resolve_max_date enddate df with
  | None => None
  | Some max_date =>
      let names := drop_duplicates String.eqb (map att_name df) in
      let days := make_workdays WORKDAYS HOLIDAYS
                    (year max_date) (month max_date) (Some max_date) in
      Some (fold_left
              (fun df_blank name =>
                 fold_left (fun df_blank day => df_blank ++ [(name, day)])
                           days df_blank)
              names [])
  end.

(** [==] on two timestamps: [NaT] is equal to nothing, itself included. *)
Definition ts_eq (a b : option Timestamp) : bool :=
  match a, b with
  | Some x, Some y => x =? y
  | _, _ => false
  end.

(** Comparisons of a field of a possibly missing timestamp with a constant:
    the field of [NaT] is [nan] and every comparison with it is false. *)
Definition field_gt (f : Timestamp -> Z) (a : option Timestamp) (c : Z) : bool :=
  match a with Some x => c <? f x | None => false end.

Definition field_lt (f : Timestamp -> Z) (a : option Timestamp) (c : Z) : bool :=
  match a with Some x => f x <? c | None => false end.

Definition field_eq (f : Timestamp -> Z) (a : option Timestamp) (c : Z) : bool :=
  match a with Some x => f x =? c | None => false end.

Definition is_missing {A : Type} (a : option A) : bool :=
  match a with Some _ => false | None => true end.

(** The markers of the missing-punch column. *)
Definition MARK_FULL_DAY : string := "全天卡".
Definition MARK_OFF_DUTY : string := "下班卡".
Definition MARK_ON_DUTY : string := "上班卡".

Definition _general_chidao (row : Joined) : option string :=
  if negb (is_missing (j_type row)) then None
  else if ts_eq (j_onduty row) (j_offduty row) then None
  else if field_gt hour (j_onduty row) 9
          || (field_eq hour (j_onduty row) 9 && field_gt minute (j_onduty row) 0)
  then option_map strftime_md_HM (j_onduty row)
  else if field_lt hour (j_offduty row) 18
  then option_map strftime_md_HM (j_offduty row)
  else None.

Definition _general_abnormal (row : Joined) : option string :=
  if negb (is_missing (j_type row)) then None
  else if is_missing (j_onduty row) || is_missing (j_offduty row)
  then Some (strftime_md (j_date row) ++ MARK_FULL_DAY)%string
  else if ts_eq (j_onduty row) (j_offduty row)
  then if field_lt hour (j_onduty row) 12
       then option_map (fun ts => strftime_md ts ++ MARK_OFF_DUTY)%string
                       (j_onduty row)
       else option_map (fun ts => strftime_md ts ++ MARK_ON_DUTY)%string
                       (j_onduty row)
  else None.

(** The join keys [on=['name', 'date']]. *)
Definition key_eqb (k1 k2 : string * Timestamp) : bool :=
  String.eqb (fst k1) (fst k2) && (snd k1 =? snd k2).

Definition att_key (a : AttRow) : string * Timestamp := (att_name a, att_date a).
Definition abn_key (e : AbnRow) : string * Timestamp := (abn_name e, abn_date e).

(** The grid after the first join: [name], [date], [onduty], [offduty]. *)
Definition merge_att (df_final : list (string * Timestamp))
    (df_att : list AttRow)
    : list (string * Timestamp * option Timestamp * option Timestamp) :=
  merge_left (fun g a => key_eqb g (att_key a))
             (fun g a => (g, att_onduty a, att_offduty a))
             (fun g => (g, None, None))
             df_final df_att.

Definition merge_abn
    (df_final : list (string * Timestamp * option Timestamp * option Timestamp))
    (df_abn : list AbnRow) : list Joined :=
  merge_left (fun g e => key_eqb (fst (fst g)) (abn_key e))
             (fun g e => mkJoined (fst (fst (fst g))) (snd (fst (fst g)))
                                  (snd (fst g)) (snd g)
                                  (Some (abn_type e)) (abn_time e))
             (fun g => mkJoined (fst (fst (fst g))) (snd (fst (fst g)))
                                (snd (fst g)) (snd g) None None)
             df_final df_abn.

(** [general_final_info], from the three frames of the readers on. *)
Definition general_final_info (enddate : option Timestamp)
    (df_att : list AttRow) (df_abnormal df_offwork : list AbnRow)
    : option (list Row) :=
  match general_blank_dataframe enddate df_att with
  | None => None
  | Some df_final =>
      let df_abn := df_abnormal ++ df_offwork in
      let df_final := merge_att df_final df_att in
      let df_final := merge_abn df_final df_abn in
      Some (map (fun row => mkRow row (_general_chidao row)
                                  (_general_abnormal row))
                df_final)
  end.

End Reconciliation.

(** ** Aggregation *)

Definition LINE_BREAK : string := String (ascii_of_nat 10) EmptyString.

(** [_general_stat]: one pass over the rows of a group, collecting the cells
    of the two derived columns that are present. *)
Definition _general_stat (df : list Row) : string * string :=
  let '(stat1, stat2) :=
    fold_left
      (fun (acc : list string * list string) (row : Row) =>
         let '(stat1, stat2) := acc in
         (match r_chidao row with Some s => stat1 ++ [s] | None => stat1 end,
          match r_abn row with Some s => stat2 ++ [s] | None => stat2 end))
      df ([], []) in
  (String.concat LINE_BREAK stat1, String.concat ";" stat2).

(** Group keys of [groupby] come out sorted. *)
Fixpoint insert_sorted (s : string) (l : list string) : list string :=
  match l with
  | [] => [s]
  | x :: xs => if String.leb s x then s :: l else x :: insert_sorted s xs
  end.

Definition sort_strings (l : list string) : list string :=
  fold_right insert_sorted [] l.

(** [df_group.groupby('name').apply(_general_stat)] in [write_to_excel]:
    one record per group key, the rows of a group in their frame order. *)
Definition groupby_name_stat (df_data : list Row)
    : list (string * (string * string)) :=
  map (fun name =>
         (name, _general_stat (filter (fun r => String.eqb (r_name r) name) df_data)))
      (sort_strings (drop_duplicates String.eqb (map r_name df_data))).

(** ** Vocabulary of the statements *)

(** The date [d] is one of the calendar dates of the month [y]-[m]
    (at midnight, as [date_range] produces them). *)
Definition in_month (y m : Z) (d : Timestamp) : Prop :=
  exists i, 1 <= i <= daysinmonth y m /\ d = of_date y m i.

(** Membership of a date in a configured list of ["%Y-%m-%d"] strings. *)
Definition configured (dates : list string) (d : Timestamp) : Prop :=
  In (strftime_Ymd d) dates.

(** Monday to Friday. *)
Definition is_weekday (d : Timestamp) : Prop := dayofweek d < 5.

Definition not_after (max_date : option Timestamp) (d : Timestamp) : Prop :=
  match max_date with
  | Some mx => d <= mx
  | None => True
  end.

(** [r] is the first Monday-to-Friday day after [d]: a whole number of days
    later, with only Saturdays and Sundays in between. *)
Definition is_next_weekday (d r : Timestamp) : Prop :=
  exists k, 1 <= k /\ r = d + timedelta_days k /\ is_weekday r
            /\ forall j, 1 <= j < k -> ~ is_weekday (d + timedelta_days j).

(** [r] is the [n]-th Monday-to-Friday day after [d]. *)
Fixpoint nth_weekday_after (n : nat) (d r : Timestamp) : Prop :=
  match n with
  | O => r = d
  | S n' => exists r', is_next_weekday d r' /\ nth_weekday_after n' r' r
  end.

(** The duration splitter as the specification words it: a record of more
    than 8 hours becomes [ceil(hours / 8)] records, itself and one record
    with a missing duration on each of the following weekdays; any other
    record stays alone. *)
Definition following_days (row : AbnRow) (n : Z) : list AbnRow :=
  map (fun k => mkAbn (abn_name row)
                      (get_next_workday (abn_date row) (Z.of_nat k))
                      (abn_type row)
                      None)
      (seq 1 (Z.to_nat (n - 1))).

Definition split_record (row : AbnRow) : list AbnRow :=
  match abn_time row with
  | Some time =>
      if negb (Qle_bool time 8)
      then row :: following_days row (ceil_div_8 time)
      else [row]
  | None => [row]
  end.

(** Two cells hold the same time; two missing cells count as the same. *)
Definition same_time (a b : option Timestamp) : bool := option_eqb Z.eqb a b.

(** The late / early rule as the specification words it, for a given
    reading [late] of "the on-duty time is later than 09:00": no flag with an
    exception type, none when the two times are the same, else the on-duty
    time when it is late, else the off-duty time when it is before 18:00. *)
Definition late_or_early_rule (late : Timestamp -> bool) (row : Joined)
    : option string :=
  match j_type row with
  | Some _ => None
  | None =>
      if same_time (j_onduty row) (j_offduty row) then None
      else if match j_onduty row with Some t => late t | None => false end
      then option_map strftime_md_HM (j_onduty row)
      else if match j_offduty row with
              | Some t => time_of_day t <? 18 * NS_PER_HOUR
              | None => false
              end
      then option_map strftime_md_HM (j_offduty row)
      else None
  end.

(** Any time strictly after nine o'clock, seconds included. *)
Definition after_0900 (t : Timestamp) : bool :=
  9 * NS_PER_HOUR <? time_of_day t.

(** 09:01 or later: the clock shows a minute after nine o'clock. *)
Definition from_0901 (t : Timestamp) : bool :=
  9 * NS_PER_HOUR + NS_PER_MINUTE <=? time_of_day t.

(** The missing-punch rule as the specification words it, for a given
    reading [no_punch] of "the punch times are absent". *)
Definition missing_punch_rule
    (no_punch : option Timestamp -> option Timestamp -> bool) (row : Joined)
    : option string :=
  match j_type row with
  | Some _ => None
  | None =>
      if no_punch (j_onduty row) (j_offduty row)
      then Some (strftime_md (j_date row) ++ MARK_FULL_DAY)%string
      else if same_time (j_onduty row) (j_offduty row)
      then match j_onduty row with
           | Some t =>
               if time_of_day t <? 12 * NS_PER_HOUR
               then Some (strftime_md t ++ MARK_OFF_DUTY)%string
               else Some (strftime_md t ++ MARK_ON_DUTY)%string
           | None => None
           end
      else None
  end.

Definition both_missing (a b : option Timestamp) : bool :=
  is_missing a && is_missing b.

Definition either_missing (a b : option Timestamp) : bool :=
  is_missing a || is_missing b.

(** The key of a row of the joined frame and of the reconciled table. *)
Definition j_key (j : Joined) : string * Timestamp := (j_name j, j_date j).
Definition r_key (r : Row) : string * Timestamp := j_key (r_joined r).

(** Number of rows a left join makes of one left row: one per partner, and
    one when there is no partner. *)
Definition fan_out {R : Type} (matches : R -> bool) (right : list R) : nat :=
  Nat.max 1 (List.length (filter matches right)).

(** Number of rows of the reconciled table for the grid key [k]. *)
Definition rows_per_key (df_att : list AttRow) (df_abn : list AbnRow)
    (k : string * Timestamp) : nat :=
  (fan_out (fun a => key_eqb k (att_key a)) df_att
   * fan_out (fun e => key_eqb k (abn_key e)) df_abn)%nat.





(** ** File lookup and the leave reader *)

(** Python's [needle in hay] on strings: [needle] occurs somewhere in [hay]
    (the empty string occurs in every string). *)
Fixpoint contains (needle hay : string) : bool :=
  String.prefix needle hay
  || match hay with
     | EmptyString => false
     | String _ rest => contains needle rest
     end.

Section Files.

(** [path.join], which [findfile_byname] applies to the absolute path of the
    directory and the name found. *)
Variable path_join : string -> string -> string.

(** [findfile_byname]. [listing] is the outcome of [listdir(file_path)], in
    the order [listdir] gives the names, [None] when it raises
    [FileNotFoundError]; [abspath] is [path.abspath(file_path)]. *)
Definition findfile_byname (listing : option (list string))
    (abspath find_str : string) : option string :=
  match listing with
  | Some files =>
      match find (contains find_str) files with
      | Some filename => Some (path_join abspath filename)
      | None => None
      end
  | None => None
  end.

End Files.

(** The leave sheet once its columns are selected and named:
    [name], [type], [date], [enddate], [time]. [off_type] is the leave code
    as [str(row.type)] shows it, [off_time] the absence in days. *)
Record OffRow : Type := mkOff {
  off_name : string;
  off_type : string;
  off_date : Timestamp;
  off_enddate : Timestamp;
  off_time : option Qc }.

Section Leave.

(** The dictionary [conf.HOLIDAY_TYPE]: leave code to description;
    [None] is a missing key. *)
Variable HOLIDAY_TYPE : string -> option string.

(** [df.apply(lambda row: conf.HOLIDAY_TYPE[str(row.type)], axis=1)] assigned
    to the column [type]: the first missing key raises [KeyError]. *)
Fixpoint lookup_types (df : list AbnRow) : option (list AbnRow) :=
  match df with
  | [] => Some []
  | row :: rest =>
      match HOLIDAY_TYPE (abn_type row) with
      | None => None
      | Some description =>
          match lookup_types rest with
          | None => None
          | Some rows =>
              Some (mkAbn (abn_name row) (abn_date row) description
                          (abn_time row) :: rows)
          end
      end
  end.

(** [read_offwork_info], from the frame with the five named columns on (a
    frame with at least one leave row): [enddate] is dropped, [time] is
    turned from days to hours, the leave code is replaced by its
    description. [None] is the [KeyError] of an unknown code. *)
Definition read_offwork_info (df : list OffRow) : option (list AbnRow) :=
  let df := map (fun row => mkAbn (off_name row) (off_date row) (off_type row)
                                  (off_time row)) df in
  let df := map (fun row => mkAbn (abn_name row) (abn_date row) (abn_type row)
                                  (option_map (fun t => t * Q2Qc 8)%Qc
                                              (abn_time row))) df in
  lookup_types df.

End Leave.

(** [needle] occurs in [hay]. *)
Definition occurs_in (needle hay : string) : Prop :=
  exists before after, hay = (before ++ needle ++ after)%string.

(** The cells a left join gives a grid row: those of a punch record with the
    key of the row, or missing cells when no punch record has that key; and
    likewise for the exception records. *)
Definition punch_cells_from (df_att : list AttRow) (j : Joined) : Prop :=
  (exists a, In a df_att /\ att_key a = j_key j
             /\ j_onduty j = att_onduty a /\ j_offduty j = att_offduty a)
  \/ ((forall a, In a df_att -> att_key a <> j_key j)
      /\ j_onduty j = None /\ j_offduty j = None).

Definition exception_cells_from (df_abn : list AbnRow) (j : Joined) : Prop :=
  (exists e, In e df_abn /\ abn_key e = j_key j
             /\ j_type j = Some (abn_type e) /\ j_time j = abn_time e)
  \/ ((forall e, In e df_abn -> abn_key e <> j_key j)
      /\ j_type j = None /\ j_time j = None).

(** The rows of the reconciled table for the key [k]. *)
Definition rows_at (k : string * Timestamp) (df : list Row) : list Row :=
  filter (fun r => key_eqb k (r_key r)) df.

Example ex_dow : dayofweek (of_date 2019 12 4) = 2.
Proof. reflexivity. Qed.

Example ex_fmt : strftime_md_HM (make 2019 12 4 9 15 0) = "12/04-09:15"%string.
Proof. reflexivity. Qed.

Example ex_ymd : strftime_Ymd (make 2020 1 22 8 20 53) = "2020-01-22"%string.
Proof. reflexivity. Qed.

Example ex_next : get_next_workday (of_date 2019 12 12) 2 = of_date 2019 12 16.
Proof. reflexivity. Qed.

(** * Properties *)

(** ** Lists *)

Section ListFacts.

Context {A B : Type}.

(** A loop that appends to an accumulator is a [flat_map]. *)
Lemma fold_left_app_flat_map (f : B -> list A) (l : list B) (init : list A) :
  fold_left (fun acc x => acc ++ f x) l init = init ++ flat_map f l.
Proof.
  revert init. induction l as [|x l IH]; intros init; simpl.
  - now rewrite app_nil_r.
  - rewrite IH. now rewrite app_assoc.
Qed.

Lemma flat_map_singleton (f : B -> A) (l : list B) :
  flat_map (fun x => [f x]) l = map f l.
Proof. induction l; simpl; congruence. Qed.

Lemma flat_map_filter_singleton (p : A -> bool) (l : list A) :
  flat_map (fun x => if p x then [x] else []) l = filter p l.
Proof.
  induction l as [|x l IH]; simpl; [reflexivity|].
  rewrite IH. now destruct (p x).
Qed.

End ListFacts.

Section DropDuplicates.

Context {A : Type} (eqb : A -> A -> bool).
Hypothesis eqb_spec : forall x y, reflect (x = y) (eqb x y).

Lemma existsb_eqb_In (x : A) (l : list A) :
  existsb (eqb x) l = true <-> In x l.
Proof.
  rewrite existsb_exists. split.
  - intros (y & Hy & E). destruct (eqb_spec x y); congruence.
  - intros H. exists x. split; [assumption|].
    destruct (eqb_spec x x); congruence.
Qed.

Lemma drop_duplicates_from_In (seen l : list A) (x : A) :
  In x (drop_duplicates_from eqb seen l) <-> In x l /\ ~ In x seen.
Proof.
  revert seen. induction l as [|y l IH]; intros seen; simpl.
  - tauto.
  - destruct (existsb (eqb y) seen) eqn:E.
    + apply existsb_eqb_In in E. rewrite IH.
      split; [tauto|]. intros [[->|H] N]; tauto.
    + assert (N : ~ In y seen) by (rewrite <- existsb_eqb_In; congruence).
      simpl. rewrite IH. simpl.
      destruct (eqb_spec y x) as [->|D]; [tauto|].
      split; [tauto|]. intros [[?|?] ?]; [tauto|]. right. tauto.
Qed.

Lemma drop_duplicates_In (l : list A) (x : A) :
  In x (drop_duplicates eqb l) <-> In x l.
Proof. unfold drop_duplicates. rewrite drop_duplicates_from_In. simpl. tauto. Qed.

Lemma drop_duplicates_from_NoDup (seen l : list A) :
  NoDup (drop_duplicates_from eqb seen l).
Proof.
  revert seen. induction l as [|y l IH]; intros seen; simpl.
  - constructor.
  - destruct (existsb (eqb y) seen); [apply IH|].
    constructor; [|apply IH].
    rewrite drop_duplicates_from_In. simpl. tauto.
Qed.

Lemma drop_duplicates_NoDup (l : list A) : NoDup (drop_duplicates eqb l).
Proof. apply drop_duplicates_from_NoDup. Qed.

(** Rows already seen disappear. *)
Lemma drop_duplicates_from_seen (seen l : list A) :
  (forall x, In x l -> In x seen) -> drop_duplicates_from eqb seen l = [].
Proof.
  revert seen. induction l as [|y l IH]; intros seen H; simpl; [reflexivity|].
  assert (E : existsb (eqb y) seen = true)
    by (apply existsb_eqb_In, H; now left).
  rewrite E. apply IH. intros x Hx. apply H. now right.
Qed.

(** A frame without duplicates is kept as it is, and what follows it is
    filtered against it. *)
Lemma drop_duplicates_from_app (seen l1 l2 : list A) :
  drop_duplicates_from eqb seen (l1 ++ l2) =
  drop_duplicates_from eqb seen l1
    ++ drop_duplicates_from eqb (rev (drop_duplicates_from eqb seen l1) ++ seen) l2.
Proof.
  revert seen. induction l1 as [|y l1 IH]; intros seen; simpl; [reflexivity|].
  destruct (existsb (eqb y) seen); [apply IH|].
  simpl. rewrite IH. f_equal. f_equal.
  now rewrite <- app_assoc.
Qed.

Lemma drop_duplicates_from_ext (seen seen' l : list A) :
  (forall x, In x seen <-> In x seen') ->
  drop_duplicates_from eqb seen l = drop_duplicates_from eqb seen' l.
Proof.
  revert seen seen'. induction l as [|y l IH]; intros seen seen' H; simpl.
  - reflexivity.
  - assert (E : existsb (eqb y) seen = existsb (eqb y) seen').
    { apply eq_true_iff_eq. rewrite !existsb_eqb_In. apply H. }
    rewrite E. destruct (existsb (eqb y) seen').
    + now apply IH.
    + f_equal. apply IH. intros x. simpl. rewrite H. tauto.
Qed.

Lemma drop_duplicates_from_id (seen l : list A) :
  NoDup l -> (forall x, In x l -> ~ In x seen) ->
  drop_duplicates_from eqb seen l = l.
Proof.
  revert seen. induction l as [|y l IH]; intros seen ND H; simpl.
  - reflexivity.
  - inversion ND as [|? ? Hy ND']; subst.
    assert (E : existsb (eqb y) seen = false).
    { apply not_true_is_false. rewrite existsb_eqb_In. apply H. now left. }
    rewrite E. f_equal. apply IH; [assumption|].
    intros x Hx [->|Hs]; [contradiction|].
    apply (H x); [now right|assumption].
Qed.

Lemma drop_duplicates_id (l : list A) : NoDup l -> drop_duplicates eqb l = l.
Proof. intros H. apply drop_duplicates_from_id; auto. Qed.

(** Appending rows that are already there changes nothing. *)
Lemma drop_duplicates_app_absorb (l extra : list A) :
  NoDup l -> (forall x, In x extra -> In x l) ->
  drop_duplicates eqb (l ++ extra) = l.
Proof.
  intros ND H. unfold drop_duplicates.
  rewrite drop_duplicates_from_app.
  rewrite (drop_duplicates_from_id [] l ND) by auto.
  rewrite drop_duplicates_from_seen; [apply app_nil_r|].
  intros x Hx. apply in_or_app. left. apply in_rev. rewrite rev_involutive.
  now apply H.
Qed.

End DropDuplicates.

(** ** Calendar *)

Lemma NS_PER_DAY_pos : 0 < NS_PER_DAY.
Proof. reflexivity. Qed.

Lemma str_in_In (s : string) (l : list string) : str_in s l = true <-> In s l.
Proof. apply existsb_eqb_In, String.eqb_spec. Qed.

Lemma day_number_add_days ts n :
  day_number (ts + timedelta_days n) = day_number ts + n.
Proof.
  unfold day_number, timedelta_days.
  apply Z.div_add. pose proof NS_PER_DAY_pos. lia.
Qed.

Lemma time_of_day_add_days ts n :
  time_of_day (ts + timedelta_days n) = time_of_day ts.
Proof.
  unfold time_of_day, timedelta_days. apply Z.mod_add.
  pose proof NS_PER_DAY_pos. lia.
Qed.

Lemma timedelta_days_add a b :
  timedelta_days (a + b) = timedelta_days a + timedelta_days b.
Proof. unfold timedelta_days. lia. Qed.

Lemma dayofweek_range ts : 0 <= dayofweek ts < 7.
Proof. unfold dayofweek. apply Z.mod_pos_bound. lia. Qed.

Lemma dayofweek_add_days ts n :
  dayofweek (ts + timedelta_days n) = (dayofweek ts + n) mod 7.
Proof.
  unfold dayofweek. rewrite day_number_add_days.
  replace (day_number ts + n + 3) with ((day_number ts + 3) + n) by lia.
  now rewrite Zplus_mod_idemp_l.
Qed.

(** Within a month the day of the month counts days: the [i]-th of the month
    is [i - 1] days after the first. *)
Lemma of_date_day y m i :
  of_date y m i = of_date y m 1 + timedelta_days (i - 1).
Proof. unfold of_date, days_from_civil, timedelta_days. lia. Qed.

Lemma date_range_In start n d :
  In d (date_range start n) <->
  exists i, 0 <= i < Z.of_nat n /\ d = start + timedelta_days i.
Proof.
  revert start. induction n as [|n IH]; intros start.
  - simpl. split; [tauto|]. intros (i & Hi & _). lia.
  - cbn [date_range In]. rewrite IH. split.
    + intros [<-|(i & Hi & ->)].
      * exists 0. split; [lia|]. unfold timedelta_days. lia.
      * exists (i + 1). split; [lia|].
        rewrite timedelta_days_add. lia.
    + intros (i & Hi & ->).
      destruct (Z.eq_dec i 0) as [->|N].
      * left. unfold timedelta_days. lia.
      * right. exists (i - 1). split; [lia|].
        replace i with (1 + (i - 1)) at 1 by lia.
        rewrite timedelta_days_add. lia.
Qed.

Lemma date_range_sorted start n : StronglySorted Z.lt (date_range start n).
Proof.
  revert start. induction n as [|n IH]; intros start; simpl.
  - constructor.
  - constructor; [apply IH|].
    apply Forall_forall. intros d Hd.
    apply date_range_In in Hd. destruct Hd as (i & Hi & ->).
    unfold timedelta_days. pose proof NS_PER_DAY_pos. nia.
Qed.

Lemma StronglySorted_filter {A : Type} (R : A -> A -> Prop) (p : A -> bool)
    (l : list A) :
  StronglySorted R l -> StronglySorted R (filter p l).
Proof.
  induction 1 as [|x l S IH F]; simpl; [constructor|].
  destruct (p x); [|assumption].
  constructor; [assumption|].
  rewrite Forall_forall in *. intros y Hy.
  apply filter_In in Hy. now apply F.
Qed.

Lemma StronglySorted_lt_NoDup (l : list Z) : StronglySorted Z.lt l -> NoDup l.
Proof.
  induction 1 as [|x l S IH F]; constructor; [|assumption].
  intros Hx. rewrite Forall_forall in F. specialize (F x Hx). lia.
Qed.

(** The dates of the month [y]-[m]: its first day and the following ones. *)
Lemma month_dates_In y m d :
  In d (date_range (of_date y m 1) (Z.to_nat (daysinmonth y m))) <->
  exists i, 1 <= i <= daysinmonth y m /\ d = of_date y m i.
Proof.
  rewrite date_range_In. split.
  - intros (i & Hi & ->). exists (i + 1). split; [lia|].
    rewrite (of_date_day y m (i + 1)). now replace (i + 1 - 1) with i by lia.
  - intros (i & Hi & ->). exists (i - 1). split; [lia|]. apply of_date_day.
Qed.

(** ** The calendar arithmetic *)

(** The year of the era is recovered from the day of the era; the 366th day
    of a year exists in leap years only (years of the era start in March, so
    the year before a leap year is the long one). *)
Lemma year_of_era_recovered yoe doy :
  0 <= yoe < 400 -> 0 <= doy <= 365 ->
  (doy = 365 ->
   (yoe + 1) mod 4 = 0
   /\ ((yoe + 1) mod 100 <> 0 \/ (yoe + 1) mod 400 = 0)) ->
  let doe := yoe * 365 + yoe / 4 - yoe / 100 + doy in
  0 <= doe < 146097
  /\ (doe - doe / 1460 + doe / 36524 - doe / 146096) / 365 = yoe.
Proof.
  intros Hy Hd Hl doe. subst doe.
  split; Z.div_mod_to_equations; lia.
Qed.

Lemma civil_from_days_parts era yoe doy :
  0 <= yoe < 400 -> 0 <= doy <= 365 ->
  (doy = 365 ->
   (yoe + 1) mod 4 = 0
   /\ ((yoe + 1) mod 100 <> 0 \/ (yoe + 1) mod 400 = 0)) ->
  civil_from_days
    (era * 146097 + (yoe * 365 + yoe / 4 - yoe / 100 + doy) - 719468)
  = let mp := (5 * doy + 2) / 153 in
    let m := if mp <? 10 then mp + 3 else mp - 9 in
    ((if m <=? 2 then yoe + era * 400 + 1 else yoe + era * 400),
     m, doy - (153 * mp + 2) / 5 + 1).
Proof.
  intros Hy Hd Hl.
  destruct (year_of_era_recovered yoe doy Hy Hd Hl) as [Rdoe Ryoe].
  unfold civil_from_days.
  set (doe := yoe * 365 + yoe / 4 - yoe / 100 + doy) in *.
  replace (era * 146097 + doe - 719468 + 719468) with (doe + era * 146097)
    by lia.
  rewrite Z.div_add by lia.
  rewrite (Z.div_small doe 146097) by lia.
  cbv zeta.
  replace (doe + era * 146097 - (0 + era) * 146097) with doe by lia.
  rewrite Ryoe.
  replace (doe - (365 * yoe + yoe / 4 - yoe / 100)) with doy
    by (unfold doe; lia).
  reflexivity.
Qed.

Lemma daysinmonth_bounds y m d :
  1 <= m <= 12 -> 1 <= d <= daysinmonth y m ->
  d <= 31
  /\ (m = 4 \/ m = 6 \/ m = 9 \/ m = 11 -> d <= 30)
  /\ (m = 2 -> d <= 29 /\ (d = 29 -> is_leap_year y = true)).
Proof.
  intros Hm. unfold daysinmonth.
  destruct (Z.eqb_spec m 2) as [->|N2].
  - destruct (is_leap_year y); intros Hd; repeat split; try lia;
      try (intros _; reflexivity).
  - destruct (Z.eqb_spec m 4), (Z.eqb_spec m 6), (Z.eqb_spec m 9),
      (Z.eqb_spec m 11); cbn [orb]; intros Hd; repeat split; lia.
Qed.

Lemma is_leap_year_iff y :
  is_leap_year y = true <->
  y mod 4 = 0 /\ (y mod 100 <> 0 \/ y mod 400 = 0).
Proof.
  unfold is_leap_year.
  rewrite orb_true_iff, andb_true_iff, negb_true_iff, !Z.eqb_eq, Z.eqb_neq.
  Z.div_mod_to_equations. lia.
Qed.

(** A calendar date read back from its day number is the same date. *)
Lemma civil_from_days_from_civil y m d :
  1 <= m <= 12 -> 1 <= d <= daysinmonth y m ->
  civil_from_days (days_from_civil y m d) = (y, m, d).
Proof.
  intros Hm Hd.
  destruct (daysinmonth_bounds y m d Hm Hd) as (B31 & B30 & B29).
  unfold days_from_civil.
  set (y' := if m <=? 2 then y - 1 else y).
  set (mp := if 2 <? m then m - 3 else m + 9).
  cbv zeta.
  set (yoe := y' - y' / 400 * 400).
  set (doy := (153 * mp + 2) / 5 + d - 1).
  assert (Hyoe : 0 <= yoe < 400)
    by (unfold yoe; Z.div_mod_to_equations; lia).
  assert (Hy' : y' = yoe + y' / 400 * 400) by (unfold yoe; lia).
  assert (Cases : m = 1 \/ m = 2 \/ m = 3 \/ m = 4 \/ m = 5 \/ m = 6 \/
                  m = 7 \/ m = 8 \/ m = 9 \/ m = 10 \/ m = 11 \/ m = 12)
    by lia.
  assert (Leap : m = 2 -> d = 29 ->
                 (yoe + 1) mod 4 = 0
                 /\ ((yoe + 1) mod 100 <> 0 \/ (yoe + 1) mod 400 = 0)).
  { intros -> E. destruct B29 as [_ L]; [reflexivity|].
    apply is_leap_year_iff in L; [|assumption].
    unfold yoe, y'. cbn [Z.leb Z.compare Pos.compare Pos.compare_cont].
    Z.div_mod_to_equations. lia. }
  assert (Hdoy : 0 <= doy <= 365 /\ (doy = 365 -> m = 2 /\ d = 29)
                 /\ (5 * doy + 2) / 153 = mp
                 /\ doy - (153 * mp + 2) / 5 + 1 = d
                 /\ m = (if mp <? 10 then mp + 3 else mp - 9)).
  { assert (Hmp : (m <= 2 /\ mp = m + 9) \/ (2 < m /\ mp = m - 3))
      by (unfold mp; destruct (Z.ltb_spec 2 m); lia).
    unfold doy. clearbody mp. clear doy Leap Hy' Hyoe yoe y'.
    destruct (Z.ltb_spec mp 10);
      repeat (destruct Cases as [->|Cases]); try subst m;
      (split; [|split; [|split; [|split]]]);
      Z.div_mod_to_equations; lia. }
  destruct Hdoy as (Rdoy & L365 & Rmp & Rd & Rm).
  rewrite civil_from_days_parts; [|assumption|assumption|].
  - cbv zeta. rewrite Rmp, Rd, <- Rm. f_equal. f_equal.
    unfold y' in Hy'. destruct (m <=? 2); lia.
  - intros E. destruct (L365 E). now apply Leap.
Qed.

Lemma day_number_of_date y m d : day_number (of_date y m d) = days_from_civil y m d.
Proof.
  unfold day_number, of_date. apply Z.div_mul.
  pose proof NS_PER_DAY_pos. lia.
Qed.

Lemma time_of_day_of_date y m d : time_of_day (of_date y m d) = 0.
Proof.
  unfold time_of_day, of_date. apply Z.mod_mul.
  pose proof NS_PER_DAY_pos. lia.
Qed.

(** The dates of a month are the midnights of its calendar days: the fields
    of [of_date y m d] are [y], [m] and [d], and its ["%Y-%m-%d"] string
    shows them. *)
Lemma in_month_fields y m d :
  1 <= m <= 12 -> in_month y m d ->
  year d = y /\ month d = m /\ 1 <= day d <= daysinmonth y m
  /\ time_of_day d = 0
  /\ strftime_Ymd d = (pad4 y ++ "-" ++ pad2 m ++ "-" ++ pad2 (day d))%string.
Proof.
  intros Hm (i & Hi & ->).
  unfold strftime_Ymd, year, month, day.
  rewrite day_number_of_date, civil_from_days_from_civil by assumption.
  cbn [fst snd]. rewrite time_of_day_of_date. repeat split; lia.
Qed.

(** ** Calendar generator *)

Lemma make_workdays_loop WORKDAYS HOLIDAYS max_date workdays result :
  fold_left (make_workdays_step WORKDAYS HOLIDAYS max_date) workdays result =
  result ++
  filter (fun d =>
            negb (negb (str_in (strftime_Ymd d) WORKDAYS)
                  && ((5 <=? dayofweek d) || str_in (strftime_Ymd d) HOLIDAYS))
            && negb (match max_date with
                     | Some mx => mx <? d
                     | None => false
                     end))
         workdays.
Proof.
  revert result. induction workdays as [|d l IH]; intros result; simpl.
  - now rewrite app_nil_r.
  - rewrite IH. unfold make_workdays_step. cbv zeta.
    destruct (negb (str_in (strftime_Ymd d) WORKDAYS)
              && ((5 <=? dayofweek d) || str_in (strftime_Ymd d) HOLIDAYS));
      cbn [negb andb]; [reflexivity|].
    destruct (match max_date with Some mx => mx <? d | None => false end);
      cbn [negb]; [reflexivity|].
    now rewrite <- app_assoc.
Qed.

Lemma make_workdays_filter WORKDAYS HOLIDAYS y m max_date :
  make_workdays WORKDAYS HOLIDAYS y m max_date =
  filter (fun d =>
            negb (negb (str_in (strftime_Ymd d) WORKDAYS)
                  && ((5 <=? dayofweek d) || str_in (strftime_Ymd d) HOLIDAYS))
            && negb (match max_date with
                     | Some mx => mx <? d
                     | None => false
                     end))
         (date_range (of_date y m 1) (Z.to_nat (daysinmonth y m))).
Proof. unfold make_workdays. now rewrite make_workdays_loop. Qed.

Lemma make_workdays_In WORKDAYS HOLIDAYS y m max_date d :
  In d (make_workdays WORKDAYS HOLIDAYS y m max_date) <->
  in_month y m d
  /\ (configured WORKDAYS d \/ (is_weekday d /\ ~ configured HOLIDAYS d))
  /\ not_after max_date d.
Proof.
  rewrite make_workdays_filter, filter_In, month_dates_In.
  unfold in_month, configured, is_weekday, not_after.
  rewrite andb_true_iff, !negb_true_iff, andb_false_iff, negb_false_iff,
    orb_false_iff, Z.leb_gt.
  rewrite <- !str_in_In.
  destruct (str_in (strftime_Ymd d) HOLIDAYS);
    destruct (str_in (strftime_Ymd d) WORKDAYS);
    destruct max_date as [mx|]; rewrite ?Z.ltb_ge;
    intuition (try congruence; try lia).
Qed.

Lemma make_workdays_sorted WORKDAYS HOLIDAYS y m max_date :
  StronglySorted Z.lt (make_workdays WORKDAYS HOLIDAYS y m max_date).
Proof.
  rewrite make_workdays_filter.
  apply StronglySorted_filter, date_range_sorted.
Qed.

(** C4. For a month [m] of the calendar, [make_workdays] returns, in strictly
    ascending order (hence each date at most once), exactly the dates of the
    month that are configured extra workdays or are Monday to Friday and not
    configured holidays, up to and including [max_date] when it is given.
    Weekend days and holidays outside the extra workdays are left out, and so
    is every date after [max_date]. The dates returned are midnights of
    calendar days of that year and month. *)
Theorem make_workdays_spec :
  forall (WORKDAYS HOLIDAYS : list string) (y m : Z)
         (max_date : option Timestamp),
    1 <= m <= 12 ->
    let days := make_workdays WORKDAYS HOLIDAYS y m max_date in
    StronglySorted Z.lt days
    /\ NoDup days
    /\ (forall d,
          In d days <->
          in_month y m d
          /\ (configured WORKDAYS d
              \/ (is_weekday d /\ ~ configured HOLIDAYS d))
          /\ not_after max_date d)
    /\ (forall d,
          ~ configured WORKDAYS d ->
          ~ is_weekday d \/ configured HOLIDAYS d ->
          ~ In d days)
    /\ (forall mx d, max_date = Some mx -> mx < d -> ~ In d days)
    /\ (forall d, In d days ->
          year d = y /\ month d = m /\ 1 <= day d <= daysinmonth y m
          /\ time_of_day d = 0).
Proof.
  intros WORKDAYS HOLIDAYS y m max_date Hm days.
  pose proof (make_workdays_sorted WORKDAYS HOLIDAYS y m max_date) as S.
  split; [exact S|].
  split; [now apply StronglySorted_lt_NoDup|].
  split; [intros d; apply make_workdays_In|].
  split.
  { intros d NW HH Hd. apply make_workdays_In in Hd. tauto. }
  split.
  { intros mx d -> Hlt Hd. apply make_workdays_In in Hd.
    unfold not_after in Hd. lia. }
  intros d Hd. apply make_workdays_In in Hd. destruct Hd as (Hin & _).
  pose proof (in_month_fields y m d Hm Hin). tauto.
Qed.

Lemma make_workdays_spec_witness :
  StronglySorted Z.lt
    (make_workdays ["2020-01-19"%string] ["2020-01-01"%string] 2020 1
                   (Some (of_date 2020 1 22))).
Proof.
  exact (proj1 (make_workdays_spec ["2020-01-19"%string] ["2020-01-01"%string]
                  2020 1 (Some (of_date 2020 1 22))
                  (conj (Zle_bool_imp_le 1 1 eq_refl)
                        (Zle_bool_imp_le 1 12 eq_refl)))).
Defined.

(** January 2020 up to the 22nd, with New Year's Day a holiday and Sunday
    the 19th an extra workday. *)
Example make_workdays_january_2020 :
  make_workdays ["2020-01-19"%string] ["2020-01-01"%string] 2020 1
                (Some (of_date 2020 1 22))
  = map (of_date 2020 1) [2; 3; 6; 7; 8; 9; 10; 13; 14; 15; 16; 17; 19; 20; 21; 22].
Proof. vm_compute. reflexivity. Qed.

(** ** Weekday stepping *)

Lemma next_workday_step date :
  next_workday date =
  if dayofweek (date + timedelta_days 1) <? 5
  then date + timedelta_days 1
  else next_workday (date + timedelta_days 1).
Proof.
  funelim (next_workday date).
  - now rewrite e.
  - now rewrite H.
Qed.

(** The loop of [next_workday] runs once, except on a Friday (three times)
    and on a Saturday (twice). *)
Lemma next_workday_closed date :
  next_workday date =
  date + timedelta_days (if dayofweek date =? 4 then 3
                         else if dayofweek date =? 5 then 2 else 1).
Proof.
  pose proof (dayofweek_range date) as R.
  assert (C : dayofweek date = 4 \/ dayofweek date = 5 \/
              (dayofweek date <> 4 /\ dayofweek date <> 5)) by lia.
  destruct C as [E|[E|[N4 N5]]].
  - rewrite E. cbn [Z.eqb Pos.eqb].
    rewrite next_workday_step, dayofweek_add_days, E. cbn [Z.ltb Z.compare].
    change ((4 + 1) mod 7 <? 5) with false. cbv iota.
    rewrite next_workday_step, <- Z.add_assoc, <- timedelta_days_add.
    rewrite dayofweek_add_days, E.
    change ((4 + (1 + 1)) mod 7 <? 5) with false. cbv iota.
    rewrite next_workday_step, <- Z.add_assoc, <- timedelta_days_add.
    rewrite dayofweek_add_days, E.
    change ((4 + (1 + 1 + 1)) mod 7 <? 5) with true. cbv iota.
    reflexivity.
  - rewrite E. cbn [Z.eqb Pos.eqb].
    rewrite next_workday_step, dayofweek_add_days, E.
    change ((5 + 1) mod 7 <? 5) with false. cbv iota.
    rewrite next_workday_step, <- Z.add_assoc, <- timedelta_days_add.
    rewrite dayofweek_add_days, E.
    change ((5 + (1 + 1)) mod 7 <? 5) with true. cbv iota.
    reflexivity.
  - apply Z.eqb_neq in N4 as E4. apply Z.eqb_neq in N5 as E5.
    rewrite E4, E5.
    rewrite next_workday_step, dayofweek_add_days.
    assert (L : ((dayofweek date + 1) mod 7 <? 5) = true).
    { apply Z.ltb_lt. Z.div_mod_to_equations. lia. }
    now rewrite L.
Qed.

Lemma next_workday_spec d : is_next_weekday d (next_workday d).
Proof.
  pose proof (dayofweek_range d) as R.
  rewrite next_workday_closed. unfold is_next_weekday, is_weekday.
  destruct (dayofweek d =? 4) eqn:E4; [|destruct (dayofweek d =? 5) eqn:E5].
  - apply Z.eqb_eq in E4. exists 3. rewrite dayofweek_add_days, E4.
    split; [lia|]. split; [reflexivity|]. split; [cbn; lia|].
    intros j Hj. rewrite dayofweek_add_days, E4.
    assert (C : j = 1 \/ j = 2) by lia.
    destruct C as [->| ->]; cbn; lia.
  - apply Z.eqb_eq in E5. exists 2. rewrite dayofweek_add_days, E5.
    split; [lia|]. split; [reflexivity|]. split; [cbn; lia|].
    intros j Hj. rewrite dayofweek_add_days, E5.
    assert (C : j = 1) by lia. subst j. cbn. lia.
  - apply Z.eqb_neq in E4. apply Z.eqb_neq in E5.
    exists 1. rewrite dayofweek_add_days.
    split; [lia|]. split; [reflexivity|].
    split; [Z.div_mod_to_equations; lia|].
    intros j Hj. lia.
Qed.

Lemma next_workday_gt d : d < next_workday d.
Proof.
  rewrite next_workday_closed. unfold timedelta_days.
  pose proof NS_PER_DAY_pos.
  destruct (dayofweek d =? 4); [|destruct (dayofweek d =? 5)]; lia.
Qed.

Lemma get_next_workday_loop_succ d n :
  get_next_workday_loop d (S n) = next_workday (get_next_workday_loop d n).
Proof.
  revert d. induction n as [|n IH]; intros d; [reflexivity|].
  change (get_next_workday_loop d (S (S n)))
    with (get_next_workday_loop (next_workday d) (S n)).
  now rewrite IH.
Qed.

Lemma get_next_workday_loop_mono d n m :
  (n < m)%nat -> get_next_workday_loop d n < get_next_workday_loop d m.
Proof.
  induction 1 as [|m L IH]; rewrite get_next_workday_loop_succ.
  - apply next_workday_gt.
  - pose proof (next_workday_gt (get_next_workday_loop d m)). lia.
Qed.

Lemma get_next_workday_spec d n :
  nth_weekday_after n d (get_next_workday d (Z.of_nat n)).
Proof.
  unfold get_next_workday. rewrite Nat2Z.id.
  revert d. induction n as [|n IH]; intros d; simpl; [reflexivity|].
  exists (next_workday d). split; [apply next_workday_spec|apply IH].
Qed.

Lemma get_next_workday_inj d j k :
  get_next_workday d (Z.of_nat j) = get_next_workday d (Z.of_nat k) -> j = k.
Proof.
  unfold get_next_workday. rewrite !Nat2Z.id. intros E.
  destruct (Nat.lt_trichotomy j k) as [L|[L|L]]; [|assumption|];
    apply (get_next_workday_loop_mono d) in L; lia.
Qed.

(** ** Duration splitter *)

Lemma Qc_eqb_spec (x y : Qc) : reflect (x = y) (Qc_eqb x y).
Proof.
  unfold Qc_eqb. destruct (Qeq_bool x y) eqn:E; constructor.
  - apply Qc_is_canon. now apply Qeq_bool_iff.
  - intros ->. rewrite (proj2 (Qeq_bool_iff y y)) in E by reflexivity.
    discriminate.
Qed.

Lemma option_eqb_spec {A : Type} (eqb : A -> A -> bool) :
  (forall x y, reflect (x = y) (eqb x y)) ->
  forall x y, reflect (x = y) (option_eqb eqb x y).
Proof.
  intros H [a|] [b|]; simpl; try (constructor; congruence).
  destruct (H a b); constructor; congruence.
Qed.

Lemma AbnRow_eqb_spec (x y : AbnRow) : reflect (x = y) (AbnRow_eqb x y).
Proof.
  destruct x as [n1 d1 t1 h1], y as [n2 d2 t2 h2]. unfold AbnRow_eqb. simpl.
  destruct (String.eqb_spec n1 n2); [|constructor; congruence].
  destruct (Z.eqb_spec d1 d2); [|constructor; congruence].
  destruct (String.eqb_spec t1 t2); [|constructor; congruence].
  destruct (option_eqb_spec Qc_eqb Qc_eqb_spec h1 h2);
    constructor; congruence.
Qed.

Lemma read_abnormal_info_unfold df :
  read_abnormal_info df =
  drop_duplicates AbnRow_eqb (df ++ flat_map extra_rows (filter time_gt_8 df)).
Proof.
  unfold read_abnormal_info. cbv zeta. now rewrite fold_left_app_flat_map.
Qed.

Lemma extra_rows_following row time :
  abn_time row = Some time ->
  extra_rows row = following_days row (ceil_div_8 time).
Proof.
  intros E. unfold extra_rows, following_days. rewrite E.
  rewrite <- seq_shift, map_map.
  apply map_ext. intros j.
  now replace (Z.of_nat j + 1) with (Z.of_nat (S j)) by lia.
Qed.

Lemma time_gt_8_iff row :
  time_gt_8 row = true <->
  exists time : Qc, abn_time row = Some time /\ (8 < time)%Q.
Proof.
  unfold time_gt_8. destruct (abn_time row) as [time|].
  - rewrite negb_true_iff. split.
    + intros E. exists time. split; [reflexivity|].
      apply Qnot_le_lt. intros L. apply Qle_bool_iff in L. congruence.
    + intros (t & [= <-] & L). apply not_true_is_false. intros E.
      apply Qle_bool_iff in E. now apply Qlt_not_le in L.
  - split; [discriminate|]. intros (t & E & _). discriminate.
Qed.

Lemma ceil_div_8_ge_2 (time : Qc) : (8 < time)%Q -> 2 <= ceil_div_8 time.
Proof.
  intros L. unfold ceil_div_8.
  assert (H1 : (1 < time / 8)%Q).
  { apply Qlt_shift_div_l; [reflexivity|]. now rewrite Qmult_1_l. }
  pose proof (Qle_ceiling (time / 8)) as H2.
  assert (H3 : (inject_Z 1 < inject_Z (Qceiling (time / 8)))%Q)
    by (eapply Qlt_le_trans; eassumption).
  rewrite <- Zlt_Qlt in H3. lia.
Qed.

Lemma following_days_In row n x :
  In x (following_days row n) <->
  exists k, 1 <= k <= n - 1
            /\ x = mkAbn (abn_name row) (get_next_workday (abn_date row) k)
                         (abn_type row) None.
Proof.
  unfold following_days. rewrite in_map_iff. split.
  - intros (k & <- & Hk). apply in_seq in Hk. exists (Z.of_nat k).
    split; [lia|reflexivity].
  - intros (k & Hk & ->). exists (Z.to_nat k).
    rewrite Z2Nat.id by lia. split; [reflexivity|]. apply in_seq. lia.
Qed.

Lemma following_days_length row n :
  1 <= n -> Z.of_nat (List.length (following_days row n)) = n - 1.
Proof.
  intros H. unfold following_days. rewrite length_map, length_seq. lia.
Qed.

Lemma NoDup_map_injective {A B : Type} (f : A -> B) (l : list A) :
  (forall x y, f x = f y -> x = y) -> NoDup l -> NoDup (map f l).
Proof.
  intros I. induction 1 as [|x l N ND IH]; simpl; constructor; [|assumption].
  rewrite in_map_iff. intros (y & E & Hy). apply I in E. now subst.
Qed.

Lemma following_days_NoDup row n : NoDup (following_days row n).
Proof.
  unfold following_days.
  apply NoDup_map_injective; [|apply seq_NoDup].
  intros j k [= E]. now apply get_next_workday_inj in E.
Qed.

Lemma following_days_no_time row n x :
  In x (following_days row n) -> abn_time x = None.
Proof. rewrite following_days_In. now intros (k & _ & ->). Qed.

Lemma split_record_NoDup row : NoDup (split_record row).
Proof.
  unfold split_record.
  destruct (abn_time row) as [time|] eqn:E;
    [destruct (negb (Qle_bool time 8))|];
    try (constructor; [simpl; tauto|constructor]).
  constructor; [|apply following_days_NoDup].
  intros H. apply following_days_no_time in H. congruence.
Qed.

Lemma split_record_expand row :
  split_record row = row :: flat_map extra_rows (filter time_gt_8 [row]).
Proof.
  unfold split_record. cbn [filter]. unfold time_gt_8.
  destruct (abn_time row) as [time|] eqn:E; [|reflexivity].
  destruct (negb (Qle_bool time 8)); [|reflexivity].
  cbn [flat_map]. rewrite app_nil_r.
  now rewrite (extra_rows_following row time E).
Qed.

Lemma read_abnormal_info_single row :
  read_abnormal_info [row] = split_record row.
Proof.
  rewrite read_abnormal_info_unfold.
  change ([row] ++ flat_map extra_rows (filter time_gt_8 [row]))
    with (row :: flat_map extra_rows (filter time_gt_8 [row])).
  rewrite <- split_record_expand.
  apply (drop_duplicates_id _ AbnRow_eqb_spec), split_record_NoDup.
Qed.

Lemma split_record_In row x :
  In x (split_record row) <->
  x = row \/ (time_gt_8 row = true /\ In x (extra_rows row)).
Proof.
  unfold split_record, time_gt_8.
  destruct (abn_time row) as [time|] eqn:E.
  - rewrite <- (extra_rows_following row time E).
    destruct (negb (Qle_bool time 8)); simpl; intuition congruence.
  - simpl. intuition congruence.
Qed.

Lemma read_abnormal_info_In df x :
  In x (read_abnormal_info df) <->
  exists row, In row df /\ In x (split_record row).
Proof.
  rewrite read_abnormal_info_unfold.
  rewrite (drop_duplicates_In _ AbnRow_eqb_spec).
  rewrite in_app_iff, in_flat_map. split.
  - intros [H|(row & Hr & Hx)].
    + exists x. split; [assumption|]. apply split_record_In. now left.
    + apply filter_In in Hr. exists row. split; [tauto|].
      apply split_record_In. tauto.
  - intros (row & Hr & Hx). apply split_record_In in Hx.
    destruct Hx as [->|[G Hx]]; [now left|].
    right. exists row. split; [|assumption]. apply filter_In. tauto.
Qed.

Lemma extra_rows_no_time row x : In x (extra_rows row) -> abn_time x = None.
Proof.
  unfold extra_rows. destruct (abn_time row); [|contradiction].
  rewrite in_map_iff. now intros (j & <- & _).
Qed.

Lemma ceil_div_8_bounds (time : Qc) :
  (inject_Z (8 * (ceil_div_8 time - 1)) < time)%Q
  /\ (time <= inject_Z (8 * ceil_div_8 time))%Q.
Proof.
  unfold ceil_div_8. set (c := Qceiling (time / 8)).
  assert (E : (time == (time / 8) * 8)%Q) by field.
  pose proof (Qle_ceiling (time / 8)) as U.
  pose proof (Qceiling_lt (time / 8)) as L. fold c in U, L.
  rewrite !inject_Z_mult. split.
  - apply Qlt_le_trans with ((time / 8) * 8)%Q.
    + rewrite (Qmult_comm (inject_Z 8)).
      apply Qmult_lt_compat_r; [reflexivity|exact L].
    + rewrite <- E. apply Qle_refl.
  - apply Qle_trans with ((time / 8) * 8)%Q.
    + rewrite <- E. apply Qle_refl.
    + rewrite (Qmult_comm (inject_Z 8)).
      apply Qmult_le_compat_r; [exact U|discriminate].
Qed.

Lemma ceil_div_8_unique (time : Qc) n :
  (inject_Z (8 * (n - 1)) < time)%Q -> (time <= inject_Z (8 * n))%Q ->
  ceil_div_8 time = n.
Proof.
  intros L U. destruct (ceil_div_8_bounds time) as [L' U'].
  assert (A : (inject_Z (8 * (n - 1)) < inject_Z (8 * ceil_div_8 time))%Q)
    by (eapply Qlt_le_trans; eassumption).
  assert (B : (inject_Z (8 * (ceil_div_8 time - 1)) < inject_Z (8 * n))%Q)
    by (eapply Qlt_le_trans; eassumption).
  rewrite <- Zlt_Qlt in A, B. lia.
Qed.

Lemma lookup_types_columns HOLIDAY_TYPE (df out : list AbnRow) :
  lookup_types HOLIDAY_TYPE df = Some out ->
  map abn_name out = map abn_name df
  /\ map abn_date out = map abn_date df
  /\ map abn_time out = map abn_time df.
Proof.
  revert out. induction df as [|row df IH]; intros out; cbn [lookup_types].
  - intros [= <-]. auto.
  - destruct (HOLIDAY_TYPE (abn_type row)) as [description|]; [|discriminate].
    destruct (lookup_types HOLIDAY_TYPE df) as [rows|]; [|discriminate].
    intros [= <-]. destruct (IH rows eq_refl) as (N & D & T).
    cbn [map abn_name abn_date abn_time]. now rewrite N, D, T.
Qed.

Lemma read_offwork_info_columns HOLIDAY_TYPE (df : list OffRow) out :
  read_offwork_info HOLIDAY_TYPE df = Some out ->
  map abn_name out = map off_name df
  /\ map abn_date out = map off_date df
  /\ map abn_time out
     = map (fun row => option_map (fun t => t * Q2Qc 8)%Qc (off_time row)) df.
Proof.
  unfold read_offwork_info. cbv zeta. intros E.
  apply lookup_types_columns in E. destruct E as (N & D & T).
  rewrite !map_map in N, D, T. cbn [abn_name abn_date abn_time] in N, D, T.
  auto.
Qed.

(** C5, as the claim states it for every exception record, fails for a
    leave record: a leave of 2 days from Monday 2019-12-02 reaches the joins
    as one record of 16 hours, not as the two records of the claimed rule,
    and Tuesday 2019-12-03 is reported as a full day without punch. The same
    16 hours entered as an anomaly cover both days. *)
Lemma leave_not_split_counterexample :
  read_offwork_info
    (fun code => if String.eqb code "9700" then Some "personal leave"%string
                 else None)
    [mkOff "Alice" "9700" (of_date 2019 12 2) (of_date 2019 12 3)
           (Some (Q2Qc 2))]
  = Some [mkAbn "Alice" (of_date 2019 12 2) "personal leave" (Some (Q2Qc 16))]
  /\ split_record
       (mkAbn "Alice" (of_date 2019 12 2) "personal leave" (Some (Q2Qc 16)))
     = [mkAbn "Alice" (of_date 2019 12 2) "personal leave" (Some (Q2Qc 16));
        mkAbn "Alice" (of_date 2019 12 3) "personal leave" None]
  /\ general_final_info [] [] (Some (of_date 2019 12 3))
       [mkAtt "Alice" (of_date 2019 12 2) None None]
       (read_abnormal_info [])
       [mkAbn "Alice" (of_date 2019 12 2) "personal leave" (Some (Q2Qc 16))]
     = Some [mkRow (mkJoined "Alice" (of_date 2019 12 2) None None
                             (Some "personal leave"%string) (Some (Q2Qc 16)))
                   None None;
             mkRow (mkJoined "Alice" (of_date 2019 12 3) None None None None)
                   None (Some ("12/03" ++ MARK_FULL_DAY)%string)]
  /\ general_final_info [] [] (Some (of_date 2019 12 3))
       [mkAtt "Alice" (of_date 2019 12 2) None None]
       (read_abnormal_info
          [mkAbn "Alice" (of_date 2019 12 2) "personal leave"
                 (Some (Q2Qc 16))])
       []
     = Some [mkRow (mkJoined "Alice" (of_date 2019 12 2) None None
                             (Some "personal leave"%string) (Some (Q2Qc 16)))
                   None None;
             mkRow (mkJoined "Alice" (of_date 2019 12 3) None None
                             (Some "personal leave"%string) None)
                   None None].
Proof. repeat split; vm_compute; reflexivity. Qed.

(** C5 (amended). The duration splitter runs on the anomaly frame only. An
    anomaly record of more than 8 hours is replaced by [ceil(hours / 8)]
    records, the count [n] being the integer with [8 (n - 1) < hours <= 8 n]:
    itself, unchanged, and one record with the same name and type and a
    missing duration on each of the 1st, 2nd, ..., [(n - 1)]-th
    Monday-to-Friday days after its date (plain weekday stepping, whatever
    the configuration); an anomaly record of at most 8 hours, or with no
    duration, is left as it is. On a whole anomaly frame the output holds
    these records of every input record and nothing else, each once. A leave
    record is not split, whatever its duration: the leave reader gives one
    record per leave row, at the start date of the leave, with 8 times its
    days as hours. *)
Theorem duration_splitter_spec :
  (forall row, read_abnormal_info [row] = split_record row)
  /\ (forall row (time : Qc),
        abn_time row = Some time -> (8 < time)%Q ->
        split_record row = row :: following_days row (ceil_div_8 time)
        /\ Z.of_nat (List.length (split_record row)) = ceil_div_8 time
        /\ NoDup (split_record row))
  /\ (forall time : Qc,
        (inject_Z (8 * (ceil_div_8 time - 1)) < time)%Q
        /\ (time <= inject_Z (8 * ceil_div_8 time))%Q)
  /\ (forall row (time : Qc) n,
        abn_time row = Some time -> (8 < time)%Q ->
        (inject_Z (8 * (n - 1)) < time)%Q -> (time <= inject_Z (8 * n))%Q ->
        read_abnormal_info [row] = row :: following_days row n
        /\ Z.of_nat (List.length (read_abnormal_info [row])) = n)
  /\ (forall row n x,
        In x (following_days row n) <->
        exists k, 1 <= k <= n - 1
                  /\ x = mkAbn (abn_name row)
                               (get_next_workday (abn_date row) k)
                               (abn_type row) None)
  /\ (forall row (time : Qc),
        abn_time row = Some time -> (time <= 8)%Q -> split_record row = [row])
  /\ (forall row, abn_time row = None -> split_record row = [row])
  /\ (forall df x,
        In x (read_abnormal_info df) <->
        exists row, In row df /\ In x (split_record row))
  /\ (forall df, NoDup (read_abnormal_info df))
  /\ (forall d n, nth_weekday_after n d (get_next_workday d (Z.of_nat n)))
  /\ (forall HOLIDAY_TYPE (df : list OffRow) out,
        df <> [] ->
        read_offwork_info HOLIDAY_TYPE df = Some out ->
        List.length out = List.length df
        /\ map abn_name out = map off_name df
        /\ map abn_date out = map off_date df
        /\ map abn_time out
           = map (fun row => option_map (fun t => t * Q2Qc 8)%Qc
                                        (off_time row)) df).
Proof.
  assert (Long : forall row (time : Qc),
             abn_time row = Some time -> (8 < time)%Q ->
             split_record row = row :: following_days row (ceil_div_8 time)).
  { intros row time E L. unfold split_record. rewrite E.
    destruct (Qle_bool time 8) eqn:B; [|reflexivity].
    apply Qle_bool_iff in B. now apply Qlt_not_le in L. }
  assert (Count : forall row (time : Qc),
             abn_time row = Some time -> (8 < time)%Q ->
             Z.of_nat (List.length (split_record row)) = ceil_div_8 time).
  { intros row time E L. rewrite (Long row time E L).
    cbn [List.length]. rewrite Nat2Z.inj_succ.
    pose proof (ceil_div_8_ge_2 time L).
    rewrite following_days_length by lia. lia. }
  split; [exact read_abnormal_info_single|].
  split.
  { intros row time E L. split; [now apply Long|].
    split; [now apply Count|apply split_record_NoDup]. }
  split; [exact ceil_div_8_bounds|].
  split.
  { intros row time n E L Lo Up.
    rewrite read_abnormal_info_single.
    rewrite <- (ceil_div_8_unique time n Lo Up).
    split; [now apply Long|now apply Count]. }
  split; [exact following_days_In|].
  split.
  { intros row time E L. unfold split_record. rewrite E.
    apply Qle_bool_iff in L. now rewrite L. }
  split; [intros row E; unfold split_record; now rewrite E|].
  split; [exact read_abnormal_info_In|].
  split.
  { intros df. rewrite read_abnormal_info_unfold.
    apply drop_duplicates_NoDup, AbnRow_eqb_spec. }
  split; [intros d n; apply get_next_workday_spec|].
  intros HOLIDAY_TYPE df out _ E.
  destruct (read_offwork_info_columns HOLIDAY_TYPE df out E) as (N & D & T).
  split; [|auto].
  rewrite <- (length_map abn_name out), N. apply length_map.
Qed.

(** C6. Splitting is idempotent: a second pass regenerates only records that
    the first pass already produced, and duplicate removal drops them, so the
    frame comes back unchanged (same records, same order). A record of 17
    hours gives exactly 3 records: itself with its 17 hours and the two
    following weekdays with a missing duration. *)
Theorem duration_splitter_idempotent :
  (forall df,
     read_abnormal_info (read_abnormal_info df) = read_abnormal_info df)
  /\ (forall name date type,
        read_abnormal_info [mkAbn name date type (Some (Q2Qc 17))] =
        [ mkAbn name date type (Some (Q2Qc 17));
          mkAbn name (get_next_workday date 1) type None;
          mkAbn name (get_next_workday date 2) type None ]).
Proof.
  split.
  - intros df.
    rewrite (read_abnormal_info_unfold (read_abnormal_info df)).
    apply (drop_duplicates_app_absorb _ AbnRow_eqb_spec).
    + rewrite read_abnormal_info_unfold.
      apply drop_duplicates_NoDup, AbnRow_eqb_spec.
    + intros x Hx. apply in_flat_map in Hx. destruct Hx as (r & Hr & Hx).
      apply filter_In in Hr. destruct Hr as [Hr G].
      apply read_abnormal_info_In in Hr. destruct Hr as (row & Hrow & Hr).
      apply split_record_In in Hr. destruct Hr as [->|[_ Hr]].
      * apply read_abnormal_info_In. exists row. split; [assumption|].
        apply split_record_In. tauto.
      * apply extra_rows_no_time in Hr.
        unfold time_gt_8 in G. rewrite Hr in G. discriminate.
  - intros name date type. rewrite read_abnormal_info_single. reflexivity.
Qed.

(** ** Derived columns *)

Lemma time_of_day_range t : 0 <= time_of_day t < NS_PER_DAY.
Proof. unfold time_of_day. apply Z.mod_pos_bound, NS_PER_DAY_pos. Qed.

(** The test on [hour] and [minute] of [_general_chidao] holds from 09:01:00
    on: the seconds of the minute 09:00 do not count. *)
Lemma late_test_from_0901 t :
  (9 <? hour t) || ((hour t =? 9) && (0 <? minute t)) = from_0901 t.
Proof.
  pose proof (time_of_day_range t) as R.
  unfold from_0901, hour, minute in *.
  unfold NS_PER_DAY, NS_PER_HOUR, NS_PER_MINUTE, NS_PER_SEC in *.
  generalize dependent (time_of_day t). intros x R.
  apply eq_true_iff_eq.
  rewrite orb_true_iff, andb_true_iff, !Z.ltb_lt, Z.eqb_eq, Z.leb_le.
  Z.div_mod_to_equations. lia.
Qed.

Lemma hour_lt_iff t h :
  (hour t <? h) = (time_of_day t <? h * NS_PER_HOUR).
Proof.
  unfold hour. apply eq_true_iff_eq. rewrite !Z.ltb_lt.
  unfold NS_PER_HOUR, NS_PER_SEC.
  Z.div_mod_to_equations. lia.
Qed.

(** C2, as the claim states it, fails on the seconds of the minute 09:00:
    on 2019-12-04 with punches at 09:00:30 and 18:30:00 and no exception, the
    claimed rule flags the on-duty time, the program does not. *)
Lemma late_or_early_seconds_counterexample :
  late_or_early_rule after_0900
    (mkJoined "Alice" (of_date 2019 12 4)
              (Some (make 2019 12 4 9 0 30)) (Some (make 2019 12 4 18 30 0))
              None None)
  = Some "12/04-09:00"%string
  /\ _general_chidao
       (mkJoined "Alice" (of_date 2019 12 4)
                 (Some (make 2019 12 4 9 0 30)) (Some (make 2019 12 4 18 30 0))
                 None None)
     = None.
Proof. split; vm_compute; reflexivity. Qed.

(** C2 (amended). [lateOrEarlyFlag] is: null with an exception type; else
    null when the two punch times are the same; else the formatted on-duty
    time when it is 09:01:00 or later (hour past 9, or hour 9 and a minute
    past 0); else the formatted off-duty time when it is before 18:00; else
    null. With on duty at 09:15, off duty at 18:30 and no exception the flag
    is the formatted on-duty time. *)
Theorem late_or_early_flag_spec :
  (forall row, _general_chidao row = late_or_early_rule from_0901 row)
  /\ (forall row on off,
        j_type row = None ->
        j_onduty row = Some on -> j_offduty row = Some off ->
        hour on = 9 -> minute on = 15 -> hour off = 18 -> minute off = 30 ->
        _general_chidao row = Some (strftime_md_HM on)).
Proof.
  split.
  { intros row. unfold _general_chidao, late_or_early_rule.
    destruct (j_type row) as [ty|]; [reflexivity|]. cbn [is_missing negb].
    destruct (j_onduty row) as [on|], (j_offduty row) as [off|];
      cbn [ts_eq same_time option_eqb field_gt field_eq field_lt option_map
           orb andb];
      rewrite ?late_test_from_0901, ?hour_lt_iff; reflexivity. }
  intros row on off Ht Hon Hoff H1 H2 H3 H4.
  unfold _general_chidao. rewrite Ht, Hon, Hoff.
  cbn [is_missing negb ts_eq field_gt field_eq option_map].
  assert (N : (on =? off) = false).
  { apply Z.eqb_neq. intros ->. congruence. }
  rewrite N, H1, H2. reflexivity.
Qed.

Lemma late_or_early_flag_witness :
  _general_chidao
    (mkJoined "Alice" (of_date 2019 12 4)
              (Some (make 2019 12 4 9 15 0)) (Some (make 2019 12 4 18 30 0))
              None None)
  = Some "12/04-09:15"%string.
Proof.
  exact (proj2 late_or_early_flag_spec
           (mkJoined "Alice" (of_date 2019 12 4)
                     (Some (make 2019 12 4 9 15 0))
                     (Some (make 2019 12 4 18 30 0)) None None)
           (make 2019 12 4 9 15 0) (make 2019 12 4 18 30 0)
           eq_refl eq_refl eq_refl eq_refl eq_refl eq_refl eq_refl).
Defined.

(** C3, as the claim states it, fails when exactly one punch time is
    absent: with an on-duty time at 08:00 and no off-duty time the claimed
    rule gives no flag, the program gives the full-day marker. *)
Lemma missing_punch_one_absent_counterexample :
  missing_punch_rule both_missing
    (mkJoined "Alice" (of_date 2019 12 4)
              (Some (make 2019 12 4 8 0 0)) None None None)
  = None
  /\ _general_abnormal
       (mkJoined "Alice" (of_date 2019 12 4)
                 (Some (make 2019 12 4 8 0 0)) None None None)
     = Some ("12/04" ++ MARK_FULL_DAY)%string.
Proof. split; vm_compute; reflexivity. Qed.

(** C3 (amended). [missingPunchFlag] is: null with an exception type; else
    the full-day marker with the date of the row when the on-duty time or the
    off-duty time is absent; else, when the two times are the same, the
    missing-off-duty marker if that time is before noon and the
    missing-on-duty marker otherwise; else null. *)
Theorem missing_punch_flag_spec :
  forall row, _general_abnormal row = missing_punch_rule either_missing row.
Proof.
  intros row.
  unfold _general_abnormal, missing_punch_rule, either_missing.
  destruct (j_type row) as [ty|]; [reflexivity|]. cbn [is_missing negb].
  destruct (j_onduty row) as [on|], (j_offduty row) as [off|];
    cbn [ts_eq same_time option_eqb is_missing field_lt option_map orb];
    try reflexivity.
  rewrite hour_lt_iff. reflexivity.
Qed.

(** The single morning scan of the specification's example. *)
Example missing_punch_single_scan :
  let row := mkJoined "Alice" (of_date 2019 12 4)
                      (Some (make 2019 12 4 8 0 0))
                      (Some (make 2019 12 4 8 0 0)) None None in
  _general_abnormal row = Some ("12/04" ++ MARK_OFF_DUTY)%string
  /\ _general_chidao row = None.
Proof. split; vm_compute; reflexivity. Qed.

(** C9. With no exception type and both punch times absent the late / early
    flag is null: the fields of a missing time compare false with every
    bound. Such a cell is reported by the full-day marker only. *)
Theorem late_or_early_absent_punches :
  forall row,
    j_type row = None -> j_onduty row = None -> j_offduty row = None ->
    _general_chidao row = None
    /\ _general_abnormal row
       = Some (strftime_md (j_date row) ++ MARK_FULL_DAY)%string.
Proof.
  intros row Ht Hon Hoff.
  unfold _general_chidao, _general_abnormal. rewrite Ht, Hon, Hoff.
  split; reflexivity.
Qed.

Lemma late_or_early_absent_punches_witness :
  _general_chidao
    (mkJoined "Alice" (of_date 2019 12 4) None None None None) = None
  /\ _general_abnormal
       (mkJoined "Alice" (of_date 2019 12 4) None None None None)
     = Some (strftime_md (of_date 2019 12 4) ++ MARK_FULL_DAY)%string.
Proof.
  exact (late_or_early_absent_punches
           (mkJoined "Alice" (of_date 2019 12 4) None None None None)
           eq_refl eq_refl eq_refl).
Defined.

(** ** Repeated rows *)

Section Repeats.

Context {A B C : Type}.

Lemma flat_map_ext_in (f g : A -> list B) (l : list A) :
  (forall x, In x l -> f x = g x) -> flat_map f l = flat_map g l.
Proof.
  induction l as [|x l IH]; intros H; [reflexivity|]. cbn [flat_map].
  rewrite H by now left. rewrite IH; [reflexivity|].
  intros y Hy. apply H. now right.
Qed.

Lemma flat_map_map (f : B -> list C) (g : A -> B) (l : list A) :
  flat_map f (map g l) = flat_map (fun x => f (g x)) l.
Proof. induction l as [|x l IH]; cbn; congruence. Qed.

Lemma flat_map_flat_map (f : B -> list C) (g : A -> list B) (l : list A) :
  flat_map f (flat_map g l) = flat_map (fun x => flat_map f (g x)) l.
Proof.
  induction l as [|x l IH]; [reflexivity|]. cbn [flat_map].
  now rewrite flat_map_app, IH.
Qed.

Lemma flat_map_repeat (c : A -> nat) (x : A) (n : nat) :
  flat_map (fun y => repeat y (c y)) (repeat x n) = repeat x (n * c x).
Proof.
  induction n as [|n IH]; [reflexivity|]. cbn [repeat flat_map Nat.mul].
  now rewrite IH, repeat_app.
Qed.


Lemma in_flat_map_repeat (c : A -> nat) (l : list A) (y : A) :
  (forall x, (1 <= c x)%nat) ->
  In y (flat_map (fun x => repeat x (c x)) l) <-> In y l.
Proof.
  intros H. rewrite in_flat_map. split.
  - intros (x & Hx & Hy). apply repeat_spec in Hy. now subst.
  - intros Hy. exists y. split; [assumption|].
    specialize (H y). destruct (c y); [lia|]. now left.
Qed.



Lemma NoDup_list_prod (l1 : list A) (l2 : list B) :
  NoDup l1 -> NoDup l2 -> NoDup (list_prod l1 l2).
Proof.
  intros N1 N2. induction N1 as [|x l1 Hx N1 IH]; cbn [list_prod].
  - constructor.
  - apply NoDup_app.
    + apply NoDup_map_injective; [|assumption]. now intros y z [= ->].
    + assumption.
    + intros [a b] H1 H2. apply in_map_iff in H1.
      destruct H1 as (y & [= <- <-] & _).
      apply in_prod_iff in H2. tauto.
Qed.

End Repeats.

Lemma filter_none {A : Type} (p : A -> bool) (l : list A) :
  (forall x, In x l -> p x = false) -> filter p l = [].
Proof.
  induction l as [|x l IH]; intros H; [reflexivity|]. cbn [filter].
  rewrite H by now left. apply IH. intros y Hy. apply H. now right.
Qed.


(** ** Left joins *)

Section MergeLeft.

Context {L R O K : Type}.
Variables (keyL : L -> K) (keyO : O -> K).
Variables (on : L -> R -> bool) (joined : L -> R -> O) (unmatched : L -> O).
Hypothesis keyO_joined : forall l r, keyO (joined l r) = keyL l.
Hypothesis keyO_unmatched : forall l, keyO (unmatched l) = keyL l.

(** The keys of the joined frame: every left key, repeated. *)
Lemma merge_left_keys (left : list L) (right : list R) :
  map keyO (merge_left on joined unmatched left right) =
  flat_map (fun l => repeat (keyL l) (fan_out (on l) right)) left.
Proof.
  unfold merge_left. induction left as [|l left IH]; [reflexivity|].
  cbn [flat_map]. rewrite map_app, IH. f_equal.
  unfold fan_out. destruct (filter (on l) right) as [|r rs].
  - cbn. now rewrite keyO_unmatched.
  - rewrite Nat.max_r by (cbn [List.length]; lia).
    generalize (r :: rs). intros ms. induction ms as [|m ms IHm]; cbn.
    + reflexivity.
    + now rewrite keyO_joined, IHm.
Qed.

(** Rows of the right frame that match no left row are not seen. *)
Lemma merge_left_drop (left : list L) (r1 r2 : list R) (r : R) :
  (forall l, In l left -> on l r = false) ->
  merge_left on joined unmatched left (r1 ++ r :: r2) =
  merge_left on joined unmatched left (r1 ++ r2).
Proof.
  intros H. unfold merge_left. apply flat_map_ext_in. intros l Hl.
  rewrite !filter_app. cbn [filter]. now rewrite (H l Hl).
Qed.

End MergeLeft.

(** ** Reconciliation *)

Lemma key_eqb_spec (k1 k2 : string * Timestamp) :
  reflect (k1 = k2) (key_eqb k1 k2).
Proof.
  destruct k1 as [n1 d1], k2 as [n2 d2]. unfold key_eqb. simpl.
  destruct (String.eqb_spec n1 n2); [|constructor; congruence].
  destruct (Z.eqb_spec d1 d2); constructor; congruence.
Qed.

Lemma blank_rows_loop (days : list Timestamp) (names : list string)
    (df_blank : list (string * Timestamp)) :
  fold_left (fun df_blank name =>
               fold_left (fun df_blank day => df_blank ++ [(name, day)])
                         days df_blank)
            names df_blank
  = df_blank ++ list_prod names days.
Proof.
  revert df_blank. induction names as [|name names IH]; intros df_blank.
  - cbn. now rewrite app_nil_r.
  - cbn [fold_left list_prod]. rewrite IH.
    rewrite (fold_left_app_flat_map (fun day => [(name, day)])).
    now rewrite flat_map_singleton, app_assoc.
Qed.

(** The base grid is the product of the roster and the workdays, employee by
    employee and date-ascending for each employee. *)
Lemma general_blank_dataframe_grid WORKDAYS HOLIDAYS enddate df :
  general_blank_dataframe WORKDAYS HOLIDAYS enddate df =
  match resolve_max_date enddate df with
  | None => None
  | Some max_date =>
      Some (list_prod
              (drop_duplicates String.eqb (map att_name df))
              (make_workdays WORKDAYS HOLIDAYS (year max_date) (month max_date)
                             (Some max_date)))
  end.
Proof.
  unfold general_blank_dataframe.
  destruct (resolve_max_date enddate df) as [max_date|]; [|reflexivity].
  cbv zeta. now rewrite blank_rows_loop.
Qed.

Lemma merge_att_keys grid df_att :
  map (fun g => fst (fst g)) (merge_att grid df_att) =
  flat_map (fun k => repeat k (fan_out (fun a => key_eqb k (att_key a)) df_att))
           grid.
Proof.
  unfold merge_att.
  now rewrite (merge_left_keys (fun k => k) (fun g => fst (fst g))).
Qed.

Lemma merge_abn_keys rows df_abn :
  map j_key (merge_abn rows df_abn) =
  flat_map (fun k => repeat k (fan_out (fun e => key_eqb k (abn_key e)) df_abn))
           (map (fun g => fst (fst g)) rows).
Proof.
  unfold merge_abn.
  rewrite (merge_left_keys (fun g => fst (fst g)) j_key).
  - now rewrite flat_map_map.
  - intros [[[n d] on] off] e. reflexivity.
  - intros [[[n d] on] off]. reflexivity.
Qed.

(** The keys of the reconciled table: the grid keys in order, each as many
    times as it has partners in the two joined frames. *)
Lemma general_final_info_keys WORKDAYS HOLIDAYS enddate df_att
    df_abnormal df_offwork :
  option_map (map r_key)
    (general_final_info WORKDAYS HOLIDAYS enddate df_att df_abnormal df_offwork)
  = option_map
      (flat_map (fun k => repeat k (rows_per_key df_att
                                      (df_abnormal ++ df_offwork) k)))
      (general_blank_dataframe WORKDAYS HOLIDAYS enddate df_att).
Proof.
  unfold general_final_info.
  destruct (general_blank_dataframe WORKDAYS HOLIDAYS enddate df_att)
    as [grid|]; [|reflexivity].
  cbn [option_map]. f_equal. rewrite map_map.
  change (map (fun x => r_key (mkRow x (_general_chidao x) (_general_abnormal x))))
    with (map j_key).
  rewrite merge_abn_keys, merge_att_keys, flat_map_flat_map.
  apply flat_map_ext. intros k. apply flat_map_repeat.
Qed.

Lemma fan_out_pos {R : Type} (p : R -> bool) (l : list R) :
  (1 <= fan_out p l)%nat.
Proof. unfold fan_out. lia. Qed.


Lemma rows_per_key_one df_att df_abn k :
  rows_per_key df_att df_abn k = 1%nat <->
  (List.length (filter (fun a => key_eqb k (att_key a)) df_att) <= 1)%nat
  /\ (List.length (filter (fun e => key_eqb k (abn_key e)) df_abn) <= 1)%nat.
Proof. unfold rows_per_key, fan_out. nia. Qed.


Lemma grid_NoDup WORKDAYS HOLIDAYS df_att y m max_date :
  NoDup (list_prod (drop_duplicates String.eqb (map att_name df_att))
                   (make_workdays WORKDAYS HOLIDAYS y m max_date)).
Proof.
  apply NoDup_list_prod.
  - apply drop_duplicates_NoDup, String.eqb_spec.
  - apply StronglySorted_lt_NoDup, make_workdays_sorted.
Qed.










(** ** Off-grid exception records *)

Lemma merge_att_key_in grid df_att g :
  In g (merge_att grid df_att) -> In (fst (fst g)) grid.
Proof.
  intros H. apply (in_map (fun g => fst (fst g))) in H.
  rewrite merge_att_keys in H.
  now apply in_flat_map_repeat in H; [|intros; apply fan_out_pos].
Qed.

(** C10. An exception record whose (name, date) key is the key of no grid
    cell does not show in the reconciled table: the table is the same with
    and without that record, wherever the record stands in the unioned
    exception stream. *)
Theorem off_grid_exception_ignored :
  forall WORKDAYS HOLIDAYS enddate df_att
         df_abnormal df_offwork df_abnormal' df_offwork' before after record,
    (forall grid,
       general_blank_dataframe WORKDAYS HOLIDAYS enddate df_att = Some grid ->
       ~ In (abn_key record) grid) ->
    df_abnormal ++ df_offwork = before ++ record :: after ->
    df_abnormal' ++ df_offwork' = before ++ after ->
    general_final_info WORKDAYS HOLIDAYS enddate df_att df_abnormal df_offwork
    = general_final_info WORKDAYS HOLIDAYS enddate df_att
                         df_abnormal' df_offwork'.
Proof.
  intros WORKDAYS HOLIDAYS enddate df_att df_abnormal df_offwork
         df_abnormal' df_offwork' before after record Off E1 E2.
  unfold general_final_info.
  destruct (general_blank_dataframe WORKDAYS HOLIDAYS enddate df_att)
    as [grid|]; [|reflexivity].
  cbv zeta. rewrite E1, E2. f_equal. f_equal.
  unfold merge_abn. apply merge_left_drop.
  intros g Hg. apply merge_att_key_in in Hg.
  destruct (key_eqb_spec (fst (fst g)) (abn_key record)) as [K|]; [|reflexivity].
  exfalso. apply (Off grid eq_refl). now rewrite <- K.
Qed.

Lemma off_grid_exception_ignored_witness :
  general_final_info [] ["2019-12-09"%string] (Some (of_date 2019 12 10))
    [mkAtt "Alice" (of_date 2019 12 6)
           (Some (make 2019 12 6 8 20 53)) (Some (make 2019 12 6 18 4 51))]
    (read_abnormal_info
       [mkAbn "Alice" (of_date 2019 12 6) "training" (Some (Q2Qc 16))])
    []
  = general_final_info [] ["2019-12-09"%string] (Some (of_date 2019 12 10))
      [mkAtt "Alice" (of_date 2019 12 6)
             (Some (make 2019 12 6 8 20 53)) (Some (make 2019 12 6 18 4 51))]
      [mkAbn "Alice" (of_date 2019 12 6) "training" (Some (Q2Qc 16))]
      [].
Proof.
  apply (off_grid_exception_ignored [] ["2019-12-09"%string]
           (Some (of_date 2019 12 10)) _ _ [] _ []
           [mkAbn "Alice" (of_date 2019 12 6) "training" (Some (Q2Qc 16))]
           []
           (mkAbn "Alice" (of_date 2019 12 9) "training" None)).
  - intros grid G. vm_compute in G. injection G as <-.
    vm_compute. intros H.
    repeat (destruct H as [H|H]; [discriminate H|]). exact H.
  - reflexivity.
  - reflexivity.
Defined.

(** ** Aggregation *)





(** *** Row order of the reconciled table *)

Section Sortedness.

Context {A : Type}.






End Sortedness.




(** ** A run of the whole pipeline *)

(** One employee, end date 2019-12-04 (a Wednesday): no punch on Monday, a
    late arrival on Tuesday, a normal Wednesday. *)
Example reconciled_table_december_2019 :
  general_final_info [] [] (Some (of_date 2019 12 4))
    [mkAtt "Alice" (of_date 2019 12 3)
           (Some (make 2019 12 3 9 15 0)) (Some (make 2019 12 3 18 30 0));
     mkAtt "Alice" (of_date 2019 12 4)
           (Some (make 2019 12 4 8 20 53)) (Some (make 2019 12 4 18 4 51))]
    [] []
  = Some
      [mkRow (mkJoined "Alice" (of_date 2019 12 2) None None None None)
             None (Some ("12/02" ++ MARK_FULL_DAY)%string);
       mkRow (mkJoined "Alice" (of_date 2019 12 3)
                       (Some (make 2019 12 3 9 15 0))
                       (Some (make 2019 12 3 18 30 0)) None None)
             (Some "12/03-09:15"%string) None;
       mkRow (mkJoined "Alice" (of_date 2019 12 4)
                       (Some (make 2019 12 4 8 20 53))
                       (Some (make 2019 12 4 18 4 51)) None None)
             None None].
Proof. vm_compute. reflexivity. Qed.

Example summary_december_2019 :
  option_map groupby_name_stat
    (general_final_info [] [] (Some (of_date 2019 12 4))
       [mkAtt "Alice" (of_date 2019 12 3)
              (Some (make 2019 12 3 9 15 0)) (Some (make 2019 12 3 18 30 0));
        mkAtt "Alice" (of_date 2019 12 4)
              (Some (make 2019 12 4 8 20 53)) (Some (make 2019 12 4 18 4 51))]
       [] [])
  = Some [("Alice", ("12/03-09:15", "12/02" ++ MARK_FULL_DAY))%string].
Proof. vm_compute. reflexivity. Qed.

(** Sixteen hours of training from Thursday 2019-12-12: the second day is
    Friday the 13th. *)
Example split_sixteen_hours :
  read_abnormal_info
    [mkAbn "Alice" (of_date 2019 12 12) "training" (Some (Q2Qc 16))]
  = [mkAbn "Alice" (of_date 2019 12 12) "training" (Some (Q2Qc 16));
     mkAbn "Alice" (of_date 2019 12 13) "training" None].
Proof. vm_compute. reflexivity. Qed.

(** * Further properties *)

(** ** The calendar, read backwards *)

(** The day of the era splits into a year of the era and a day of that year;
    the 366th day exists before leap years only. *)
Lemma day_of_era_split doe :
  0 <= doe < 146097 ->
  let yoe := (doe - doe / 1460 + doe / 36524 - doe / 146096) / 365 in
  let doy := doe - (365 * yoe + yoe / 4 - yoe / 100) in
  0 <= yoe < 400 /\ 0 <= doy <= 365
  /\ (doy = 365 ->
      (yoe + 1) mod 4 = 0
      /\ ((yoe + 1) mod 100 <> 0 \/ (yoe + 1) mod 400 = 0)).
Proof.
  intros H yoe doy. unfold doy, yoe.
  split; [|split]; Z.div_mod_to_equations; lia.
Qed.

(** A day number rebuilt from its calendar date is the same day, and the
    date is a date of the calendar. *)
Lemma days_from_civil_from_days z :
  1 <= snd (fst (civil_from_days z)) <= 12
  /\ 1 <= snd (civil_from_days z)
     <= daysinmonth (fst (fst (civil_from_days z)))
                    (snd (fst (civil_from_days z)))
  /\ days_from_civil (fst (fst (civil_from_days z)))
                     (snd (fst (civil_from_days z)))
                     (snd (civil_from_days z)) = z.
Proof.
  unfold civil_from_days.
  set (era := (z + 719468) / 146097).
  set (doe := z + 719468 - era * 146097).
  assert (Hdoe : 0 <= doe < 146097)
    by (unfold doe, era; Z.div_mod_to_equations; lia).
  assert (Hz : z = era * 146097 + doe - 719468) by (unfold doe; lia).
  destruct (day_of_era_split doe Hdoe) as (Hyoe & Hdoy & Hleap).
  cbv zeta in *.
  set (yoe := (doe - doe / 1460 + doe / 36524 - doe / 146096) / 365) in *.
  set (doy := doe - (365 * yoe + yoe / 4 - yoe / 100)) in *.
  assert (Edoe : doe = yoe * 365 + yoe / 4 - yoe / 100 + doy)
    by (unfold doy; lia).
  clearbody doy yoe doe era.
  set (mp := (5 * doy + 2) / 153).
  set (d := doy - (153 * mp + 2) / 5 + 1).
  assert (Hmp : 0 <= mp <= 11) by (unfold mp; Z.div_mod_to_equations; lia).
  assert (Cases : mp = 0 \/ mp = 1 \/ mp = 2 \/ mp = 3 \/ mp = 4 \/ mp = 5 \/
                  mp = 6 \/ mp = 7 \/ mp = 8 \/ mp = 9 \/ mp = 10 \/ mp = 11)
    by lia.
  assert (Hd : 1 <= d <= 31
               /\ (mp = 1 \/ mp = 3 \/ mp = 6 \/ mp = 8 -> d <= 30)
               /\ (mp = 11 -> d <= 29 /\ (d = 29 -> doy = 365))
               /\ doy = (153 * mp + 2) / 5 + d - 1).
  { unfold d, mp. repeat split; Z.div_mod_to_equations; lia. }
  destruct Hd as (Hd31 & Hd30 & Hd29 & Edoy).
  clearbody d.
  cbn [fst snd].
  set (m := if mp <? 10 then mp + 3 else mp - 9).
  assert (Hm : (mp < 10 /\ m = mp + 3) \/ (10 <= mp /\ m = mp - 9))
    by (unfold m; destruct (Z.ltb_spec mp 10); lia).
  clearbody m.
  set (y := if m <=? 2 then yoe + era * 400 + 1 else yoe + era * 400).
  assert (Hy : (m <= 2 /\ y = yoe + era * 400 + 1)
               \/ (2 < m /\ y = yoe + era * 400))
    by (unfold y; destruct (Z.leb_spec m 2); lia).
  clearbody y.
  split; [lia|]. split.
  - split; [lia|]. unfold daysinmonth.
    destruct (Z.eqb_spec m 2) as [E2|N2].
    + destruct (is_leap_year y) eqn:L; [lia|].
      assert (d <= 28); [|lia].
      destruct (Z.eq_dec d 29) as [E29|]; [|lia]. exfalso.
      assert (NL : ~ (y mod 4 = 0 /\ (y mod 100 <> 0 \/ y mod 400 = 0))).
      { intros C. apply is_leap_year_iff in C. congruence. }
      apply NL. destruct Hleap as [L4 L100]; [lia|].
      assert (Ey : y = yoe + 1 + era * 400) by lia.
      rewrite Ey. clear - L4 L100. Z.div_mod_to_equations. lia.
    + destruct (Z.eqb_spec m 4), (Z.eqb_spec m 6), (Z.eqb_spec m 9),
        (Z.eqb_spec m 11); cbn [orb]; lia.
  - unfold days_from_civil.
    assert (Ey' : (if m <=? 2 then y - 1 else y) = yoe + era * 400)
      by (destruct (Z.leb_spec m 2); lia).
    assert (Emp : (if 2 <? m then m - 3 else m + 9) = mp)
      by (destruct (Z.ltb_spec 2 m); lia).
    rewrite Ey', Emp. cbv zeta.
    rewrite Z.div_add by lia. rewrite (Z.div_small yoe 400) by lia.
    replace (yoe + era * 400 - (0 + era) * 400) with yoe by lia.
    lia.
Qed.

(** A timestamp is the midnight of its calendar date plus its time of day. *)
Lemma timestamp_fields ts :
  1 <= month ts <= 12
  /\ 1 <= day ts <= daysinmonth (year ts) (month ts)
  /\ ts = of_date (year ts) (month ts) (day ts) + time_of_day ts.
Proof.
  unfold year, month, day, of_date, time_of_day.
  destruct (days_from_civil_from_days (day_number ts)) as (Hm & Hd & E).
  split; [exact Hm|]. split; [exact Hd|].
  rewrite E. unfold day_number. rewrite Z.mul_comm.
  apply Z.div_mod. pose proof NS_PER_DAY_pos. lia.
Qed.

Lemma of_date_le_iff y m i j : of_date y m i <= of_date y m j <-> i <= j.
Proof.
  rewrite (of_date_day y m i), (of_date_day y m j). unfold timedelta_days.
  pose proof NS_PER_DAY_pos. nia.
Qed.

(** ** Truncation of the workdays *)

Lemma filter_filter {A : Type} (f g : A -> bool) (l : list A) :
  filter f (filter g l) = filter (fun x => g x && f x) l.
Proof.
  induction l as [|x l IH]; [reflexivity|]. cbn [filter].
  destruct (g x); cbn [filter andb]; [destruct (f x)|]; congruence.
Qed.

Lemma sorted_split_at (mx : Z) (l : list Z) :
  StronglySorted Z.lt l ->
  l = filter (fun d => d <=? mx) l ++ filter (fun d => mx <? d) l.
Proof.
  induction 1 as [|x l S IH F]; [reflexivity|]. cbn [filter].
  destruct (Z.leb_spec x mx) as [L|L].
  - destruct (Z.ltb_spec mx x); [lia|]. cbn [app]. now rewrite <- IH.
  - destruct (Z.ltb_spec mx x); [|lia].
    rewrite Forall_forall in F.
    rewrite (filter_none (fun d => d <=? mx) l).
    + cbn [app]. f_equal. symmetry. apply forallb_filter_id.
      apply forallb_forall. intros d Hd. apply Z.ltb_lt.
      specialize (F d Hd). lia.
    + intros d Hd. apply Z.leb_gt. specialize (F d Hd). lia.
Qed.

Lemma make_workdays_truncated WORKDAYS HOLIDAYS y m mx :
  make_workdays WORKDAYS HOLIDAYS y m (Some mx) =
  filter (fun d => d <=? mx) (make_workdays WORKDAYS HOLIDAYS y m None).
Proof.
  rewrite !make_workdays_filter, filter_filter.
  apply filter_ext. intros d. cbn [negb]. rewrite andb_true_r.
  f_equal. now rewrite Z.leb_antisym.
Qed.

(** X1. Giving [max_date] only cuts the end of the list: the truncated list
    is the untruncated one without its dates after [max_date], which all
    come last. It is empty when [max_date] is before the first of the month
    and untouched when [max_date] is the last day of the month or later. *)
Theorem make_workdays_truncation :
  forall WORKDAYS HOLIDAYS y m mx,
    let full := make_workdays WORKDAYS HOLIDAYS y m None in
    let cut := make_workdays WORKDAYS HOLIDAYS y m (Some mx) in
    cut = filter (fun d => d <=? mx) full
    /\ full = cut ++ filter (fun d => mx <? d) full
    /\ (mx < of_date y m 1 -> cut = [])
    /\ (of_date y m (daysinmonth y m) <= mx -> cut = full).
Proof.
  intros WORKDAYS HOLIDAYS y m mx full cut.
  assert (E : cut = filter (fun d => d <=? mx) full)
    by apply make_workdays_truncated.
  split; [exact E|]. split.
  { rewrite E. apply sorted_split_at, make_workdays_sorted. }
  split.
  - intros Hlt. rewrite E. apply filter_none. intros d Hd.
    apply make_workdays_In in Hd. destruct Hd as ((i & Hi & ->) & _).
    apply Z.leb_gt. pose proof (proj2 (of_date_le_iff y m 1 i)). lia.
  - intros Hge. rewrite E. apply forallb_filter_id.
    apply forallb_forall. intros d Hd.
    apply make_workdays_In in Hd. destruct Hd as ((i & Hi & ->) & _).
    apply Z.leb_le.
    pose proof (proj2 (of_date_le_iff y m i (daysinmonth y m))). lia.
Qed.

(** X2. The workdays of the grid: whatever the time of day of the end date,
    they are the working days among the 1st, 2nd, ... up to the end date's
    own day, in the end date's month and year, at midnight. *)
Theorem workdays_up_to_end_date :
  forall WORKDAYS HOLIDAYS max_date d,
    In d (make_workdays WORKDAYS HOLIDAYS (year max_date) (month max_date)
                        (Some max_date))
    <->
    (exists i, 1 <= i <= day max_date
               /\ d = of_date (year max_date) (month max_date) i)
    /\ (configured WORKDAYS d \/ (is_weekday d /\ ~ configured HOLIDAYS d)).
Proof.
  intros WORKDAYS HOLIDAYS max_date d.
  destruct (timestamp_fields max_date) as (Hm & Hd & E).
  pose proof (time_of_day_range max_date) as T.
  set (Y := year max_date) in *. set (M := month max_date) in *.
  set (D := day max_date) in *.
  rewrite make_workdays_In. unfold in_month, not_after.
  assert (Next : of_date Y M (D + 1) = of_date Y M D + NS_PER_DAY).
  { rewrite (of_date_day Y M (D + 1)), (of_date_day Y M D).
    unfold timedelta_days. lia. }
  split.
  - intros ((i & Hi & ->) & R & Le). split; [|exact R].
    exists i. split; [|reflexivity].
    assert (of_date Y M i < of_date Y M (D + 1)) by lia.
    pose proof (proj2 (of_date_le_iff Y M (D + 1) i)). lia.
  - intros ((i & Hi & ->) & R). split; [|split; [exact R|]].
    + exists i. split; [lia|reflexivity].
    + pose proof (proj2 (of_date_le_iff Y M i D)). lia.
Qed.

(** ** Weekday stepping, continued *)

Lemma dayofweek_next_workday x :
  dayofweek (next_workday x) =
  if 4 <=? dayofweek x then 0 else dayofweek x + 1.
Proof.
  pose proof (dayofweek_range x) as R.
  rewrite next_workday_closed, dayofweek_add_days.
  destruct (Z.eqb_spec (dayofweek x) 4) as [E|N4];
    [rewrite E; reflexivity|].
  destruct (Z.eqb_spec (dayofweek x) 5) as [E|N5];
    [rewrite E; reflexivity|].
  destruct (Z.leb_spec 4 (dayofweek x)) as [L|L].
  - assert (E : dayofweek x = 6) by lia. rewrite E. reflexivity.
  - apply Z.mod_small. lia.
Qed.

Lemma time_of_day_next_workday x :
  time_of_day (next_workday x) = time_of_day x.
Proof. rewrite next_workday_closed. apply time_of_day_add_days. Qed.

Lemma get_next_workday_loop_add d a b :
  get_next_workday_loop (get_next_workday_loop d a) b
  = get_next_workday_loop d (a + b).
Proof.
  revert d. induction a as [|a IH]; intros d; [reflexivity|].
  cbn [get_next_workday_loop Nat.add]. apply IH.
Qed.

(** From a Monday-to-Friday day, [n] steps are [n] days plus two days for
    every weekend passed. *)
Lemma get_next_workday_loop_closed d n :
  dayofweek d < 5 ->
  get_next_workday_loop d n
  = d + timedelta_days (Z.of_nat n + 2 * ((dayofweek d + Z.of_nat n) / 5))
  /\ dayofweek (get_next_workday_loop d n) = (dayofweek d + Z.of_nat n) mod 5.
Proof.
  intros W. pose proof (dayofweek_range d) as R.
  induction n as [|n [IH1 IH2]].
  - cbn [get_next_workday_loop Z.of_nat]. rewrite Z.add_0_r.
    rewrite Z.div_small, Z.mod_small by lia.
    unfold timedelta_days. split; lia.
  - rewrite get_next_workday_loop_succ.
    set (r := get_next_workday_loop d n) in *.
    set (s := dayofweek d + Z.of_nat n) in *.
    replace (dayofweek d + Z.of_nat (S n)) with (s + 1) by lia.
    assert (Hs : 0 <= s) by lia.
    split.
    + rewrite next_workday_closed, IH2, IH1, <- Z.add_assoc,
        <- timedelta_days_add.
      f_equal. f_equal.
      destruct (Z.eqb_spec (s mod 5) 4) as [E|N].
      * replace (Z.of_nat (S n)) with (Z.of_nat n + 1) by lia.
        Z.div_mod_to_equations. lia.
      * destruct (Z.eqb_spec (s mod 5) 5) as [E5|_];
          [pose proof (Z.mod_pos_bound s 5); lia|].
        replace (Z.of_nat (S n)) with (Z.of_nat n + 1) by lia.
        Z.div_mod_to_equations. lia.
    + rewrite dayofweek_next_workday, IH2.
      destruct (Z.leb_spec 4 (s mod 5)); Z.div_mod_to_equations; lia.
Qed.

Lemma get_next_workday_later_weekday d n :
  1 <= n ->
  is_weekday (get_next_workday d n)
  /\ d < get_next_workday d n
  /\ time_of_day (get_next_workday d n) = time_of_day d.
Proof.
  intros Hn. unfold get_next_workday, is_weekday.
  destruct (Z.to_nat n) as [|k] eqn:E; [lia|]. clear E Hn.
  rewrite get_next_workday_loop_succ.
  split; [|split].
  - rewrite dayofweek_next_workday.
    pose proof (dayofweek_range (get_next_workday_loop d k)).
    destruct (Z.leb_spec 4 (dayofweek (get_next_workday_loop d k))); lia.
  - pose proof (next_workday_gt (get_next_workday_loop d k)).
    assert (d <= get_next_workday_loop d k); [|lia].
    destruct k as [|k]; [cbn; lia|].
    pose proof (get_next_workday_loop_mono d 0 (S k) ltac:(lia)) as M.
    cbn [get_next_workday_loop] in M |- *. lia.
  - rewrite time_of_day_next_workday.
    induction k as [|k IH]; [reflexivity|].
    rewrite get_next_workday_loop_succ, time_of_day_next_workday. exact IH.
Qed.

(** X3. [get_next_workday] with a count of zero or less gives the date back
    unchanged, a Saturday or a Sunday included; with a count of one or more
    the result is a Monday-to-Friday day, strictly later, at the same time of
    day. *)
Theorem get_next_workday_result :
  (forall d n, n <= 0 -> get_next_workday d n = d)
  /\ (forall d n,
        1 <= n ->
        is_weekday (get_next_workday d n)
        /\ d < get_next_workday d n
        /\ time_of_day (get_next_workday d n) = time_of_day d).
Proof.
  split.
  - intros d n Hn. unfold get_next_workday.
    replace (Z.to_nat n) with O by lia. reflexivity.
  - intros d n Hn. now apply get_next_workday_later_weekday.
Qed.

(** X4. Steps add up: [b] steps after [a] steps are [a + b] steps. *)
Theorem get_next_workday_add :
  forall d a b,
    0 <= a -> 0 <= b ->
    get_next_workday (get_next_workday d a) b = get_next_workday d (a + b).
Proof.
  intros d a b Ha Hb. unfold get_next_workday.
  rewrite get_next_workday_loop_add. f_equal. lia.
Qed.

Lemma get_next_workday_add_witness :
  get_next_workday (get_next_workday (of_date 2019 12 12) 1) 2
  = get_next_workday (of_date 2019 12 12) (1 + 2).
Proof.
  exact (get_next_workday_add (of_date 2019 12 12) 1 2
           (Zle_bool_imp_le 0 1 eq_refl) (Zle_bool_imp_le 0 2 eq_refl)).
Defined.

(** X5. From a Monday-to-Friday day, [n] steps move the date by [n] days
    plus two days for every weekend passed; five steps are one week. *)
Theorem get_next_workday_from_weekday :
  forall d n,
    is_weekday d -> 0 <= n ->
    get_next_workday d n
    = d + timedelta_days (n + 2 * ((dayofweek d + n) / 5))
    /\ get_next_workday d (5 * n) = d + timedelta_days (7 * n).
Proof.
  intros d n W Hn. unfold get_next_workday, is_weekday in *.
  pose proof (dayofweek_range d) as R.
  split.
  - rewrite (proj1 (get_next_workday_loop_closed d (Z.to_nat n) W)).
    now rewrite Z2Nat.id by lia.
  - rewrite (proj1 (get_next_workday_loop_closed d (Z.to_nat (5 * n)) W)).
    rewrite Z2Nat.id by lia. f_equal. f_equal.
    Z.div_mod_to_equations. lia.
Qed.

Lemma get_next_workday_from_weekday_witness :
  get_next_workday (of_date 2019 12 12) 3
  = of_date 2019 12 12
    + timedelta_days (3 + 2 * ((dayofweek (of_date 2019 12 12) + 3) / 5))
  /\ get_next_workday (of_date 2019 12 12) (5 * 3)
     = of_date 2019 12 12 + timedelta_days (7 * 3).
Proof.
  exact (get_next_workday_from_weekday (of_date 2019 12 12) 3
           (eq_refl : is_weekday (of_date 2019 12 12))
           (Zle_bool_imp_le 0 3 eq_refl)).
Defined.

(** ** Duration splitter, continued *)

Lemma filter_all_false {A : Type} (p : A -> bool) (l : list A) :
  (forall x, In x l -> p x = false) -> filter p l = [].
Proof. apply filter_none. Qed.

Lemma extra_rows_In row x :
  In x (extra_rows row) ->
  abn_name x = abn_name row /\ abn_type x = abn_type row
  /\ abn_time x = None
  /\ exists k, 1 <= k /\ abn_date x = get_next_workday (abn_date row) k.
Proof.
  unfold extra_rows. destruct (abn_time row) as [time|]; [|contradiction].
  rewrite in_map_iff. intros (j & <- & _). cbn.
  repeat split. exists (Z.of_nat j + 1). split; [lia|reflexivity].
Qed.

(** X6. The rows of the anomaly frame come out first, in their order and
    without their duplicates; the generated rows follow them at the end of
    the frame (not next to the record they continue). A generated row has
    no duration and is not a row of the input. *)
Theorem read_abnormal_info_appends :
  forall df,
    exists generated,
      read_abnormal_info df = drop_duplicates AbnRow_eqb df ++ generated
      /\ (forall x, In x generated -> abn_time x = None /\ ~ In x df).
Proof.
  intros df. rewrite read_abnormal_info_unfold. unfold drop_duplicates.
  rewrite drop_duplicates_from_app.
  eexists. split; [reflexivity|].
  intros x Hx.
  apply (drop_duplicates_from_In _ AbnRow_eqb_spec) in Hx.
  destruct Hx as [Hx Hn]. split.
  - apply in_flat_map in Hx. destruct Hx as (row & _ & Hx).
    now apply extra_rows_no_time in Hx.
  - intros Hd. apply Hn. apply in_or_app. left. apply in_rev.
    rewrite rev_involutive.
    now apply (drop_duplicates_from_In _ AbnRow_eqb_spec).
Qed.

(** X7. When no record is longer than 8 hours the splitter only drops exact
    duplicates, keeping first occurrences in order; a frame without
    duplicates comes back as it is. *)
Theorem read_abnormal_info_short_records :
  forall df,
    (forall row, In row df -> time_gt_8 row = false) ->
    read_abnormal_info df = drop_duplicates AbnRow_eqb df
    /\ (NoDup df -> read_abnormal_info df = df).
Proof.
  intros df H.
  assert (E : read_abnormal_info df = drop_duplicates AbnRow_eqb df).
  { rewrite read_abnormal_info_unfold, (filter_all_false _ _ H).
    cbn [flat_map]. now rewrite app_nil_r. }
  split; [exact E|]. intros N. rewrite E.
  now apply (drop_duplicates_id _ AbnRow_eqb_spec).
Qed.

Lemma read_abnormal_info_short_records_witness :
  read_abnormal_info
    [mkAbn "Alice" (of_date 2019 12 6) "missed punch" (Some (Q2Qc 0));
     mkAbn "Alice" (of_date 2019 12 6) "missed punch" (Some (Q2Qc 0));
     mkAbn "Bob" (of_date 2019 12 9) "training" (Some (Q2Qc 8))]
  = drop_duplicates AbnRow_eqb
      [mkAbn "Alice" (of_date 2019 12 6) "missed punch" (Some (Q2Qc 0));
       mkAbn "Alice" (of_date 2019 12 6) "missed punch" (Some (Q2Qc 0));
       mkAbn "Bob" (of_date 2019 12 9) "training" (Some (Q2Qc 8))].
Proof.
  apply (read_abnormal_info_short_records
           [mkAbn "Alice" (of_date 2019 12 6) "missed punch" (Some (Q2Qc 0));
            mkAbn "Alice" (of_date 2019 12 6) "missed punch" (Some (Q2Qc 0));
            mkAbn "Bob" (of_date 2019 12 9) "training" (Some (Q2Qc 8))]).
  intros row H.
  repeat (destruct H as [<-|H]; [reflexivity|]). destruct H.
Defined.

(** X8. Where the rows of the output come from: every row has the name and
    the type of an input record; it is that record itself, or it has no
    duration and falls on a Monday-to-Friday day strictly after the date of
    that record, at the same time of day. A row with a duration is always an
    input row: durations are never written, split or changed. *)
Theorem read_abnormal_info_provenance :
  forall df x,
    In x (read_abnormal_info df) ->
    (exists row,
       In row df
       /\ abn_name x = abn_name row /\ abn_type x = abn_type row
       /\ (x = row
           \/ (abn_time x = None
               /\ abn_date row < abn_date x
               /\ is_weekday (abn_date x)
               /\ time_of_day (abn_date x) = time_of_day (abn_date row))))
    /\ (forall t, abn_time x = Some t -> In x df).
Proof.
  intros df x Hx. apply read_abnormal_info_In in Hx.
  destruct Hx as (row & Hrow & Hx). apply split_record_In in Hx.
  destruct Hx as [->|[_ Hx]].
  - split; [|intros; assumption].
    exists row. repeat split; auto.
  - destruct (extra_rows_In row x Hx) as (En & Et & Ed & k & Hk & Ek).
    split; [|intros t E; congruence].
    exists row. split; [assumption|]. split; [assumption|].
    split; [assumption|]. right. split; [assumption|].
    rewrite Ek.
    destruct (get_next_workday_later_weekday (abn_date row) k Hk)
      as (W & L & T). auto.
Qed.

Lemma read_abnormal_info_provenance_witness :
  exists row,
    In row [mkAbn "Alice" (of_date 2019 12 13) "training" (Some (Q2Qc 16))]
    /\ abn_name (mkAbn "Alice" (of_date 2019 12 16) "training" None)
       = abn_name row
    /\ abn_type (mkAbn "Alice" (of_date 2019 12 16) "training" None)
       = abn_type row
    /\ (mkAbn "Alice" (of_date 2019 12 16) "training" None = row
        \/ (abn_time (mkAbn "Alice" (of_date 2019 12 16) "training" None)
            = None
            /\ abn_date row
               < abn_date (mkAbn "Alice" (of_date 2019 12 16) "training" None)
            /\ is_weekday
                 (abn_date (mkAbn "Alice" (of_date 2019 12 16) "training" None))
            /\ time_of_day
                 (abn_date (mkAbn "Alice" (of_date 2019 12 16) "training" None))
               = time_of_day (abn_date row))).
Proof.
  apply (read_abnormal_info_provenance
           [mkAbn "Alice" (of_date 2019 12 13) "training" (Some (Q2Qc 16))]
           (mkAbn "Alice" (of_date 2019 12 16) "training" None)).
  vm_compute. right. left. reflexivity.
Defined.

(** ** The rows of the reconciled table *)

Lemma filter_nil_iff {A : Type} (p : A -> bool) (l : list A) :
  filter p l = [] <-> forall x, In x l -> p x = false.
Proof.
  split; [|apply filter_none].
  intros E x Hx. destruct (p x) eqn:P; [|reflexivity].
  assert (H : In x (filter p l)) by (apply filter_In; auto).
  rewrite E in H. destruct H.
Qed.

Lemma merge_left_In {L R O : Type} (on : L -> R -> bool)
    (joined : L -> R -> O) (unmatched : L -> O)
    (left : list L) (right : list R) (o : O) :
  In o (merge_left on joined unmatched left right) <->
  exists l, In l left
            /\ ((exists r, In r right /\ on l r = true /\ o = joined l r)
                \/ ((forall r, In r right -> on l r = false)
                    /\ o = unmatched l)).
Proof.
  unfold merge_left. rewrite in_flat_map.
  split; intros (l & Hl & H); exists l; (split; [exact Hl|]).
  - destruct (filter (on l) right) as [|r rs] eqn:E.
    + destruct H as [<-|[]]. right. split; [|reflexivity].
      now apply filter_nil_iff.
    + rewrite <- E in H. apply in_map_iff in H.
      destruct H as (r' & <- & Hr). apply filter_In in Hr.
      left. exists r'. tauto.
  - destruct H as [(r & Hr & Hon & ->)|[Hnone ->]].
    + assert (Hf : In r (filter (on l) right)) by (apply filter_In; auto).
      destruct (filter (on l) right) as [|r0 rs] eqn:E; [destruct Hf|].
      rewrite <- E. rewrite <- E in Hf. now apply in_map.
    + apply filter_nil_iff in Hnone. rewrite Hnone. now left.
Qed.

Lemma key_eqb_true k1 k2 : key_eqb k1 k2 = true <-> k1 = k2.
Proof. destruct (key_eqb_spec k1 k2); split; congruence. Qed.

Lemma key_eqb_false k1 k2 : key_eqb k1 k2 = false <-> k1 <> k2.
Proof. destruct (key_eqb_spec k1 k2); split; congruence. Qed.

Lemma merge_att_In grid df_att g :
  In g (merge_att grid df_att) <->
  In (fst (fst g)) grid
  /\ ((exists a, In a df_att /\ att_key a = fst (fst g)
                 /\ snd (fst g) = att_onduty a /\ snd g = att_offduty a)
      \/ ((forall a, In a df_att -> att_key a <> fst (fst g))
          /\ snd (fst g) = None /\ snd g = None)).
Proof.
  unfold merge_att. rewrite merge_left_In. split.
  - intros (k & Hk & [(a & Ha & Hon & ->)|[Hnone ->]]); cbn [fst snd].
    + apply key_eqb_true in Hon. split; [assumption|]. left. exists a. auto.
    + split; [assumption|]. right. split; [|auto].
      intros a Ha E. specialize (Hnone a Ha).
      apply key_eqb_false in Hnone. congruence.
  - destruct g as [[k on] off]. cbn [fst snd].
    intros (Hk & [(a & Ha & E & -> & ->)|(Hnone & -> & ->)]); exists k;
      (split; [assumption|]).
    + left. exists a. split; [assumption|]. split; [|reflexivity].
      now apply key_eqb_true.
    + right. split; [|reflexivity]. intros a Ha.
      apply key_eqb_false. intros E. now apply (Hnone a Ha).
Qed.

Lemma merge_abn_In rows df_abn j :
  In j (merge_abn rows df_abn) <->
  In (j_key j, j_onduty j, j_offduty j) rows
  /\ exception_cells_from df_abn j.
Proof.
  unfold merge_abn, exception_cells_from. rewrite merge_left_In. split.
  - intros ([[[n d] on] off] & Hg & [(e & He & Hon & ->)|[Hnone ->]]);
      cbn [fst snd j_key j_name j_date j_onduty j_offduty j_type j_time] in *.
    + apply key_eqb_true in Hon. split; [assumption|]. left. exists e. auto.
    + split; [assumption|]. right. split; [|auto].
      intros e He E. specialize (Hnone e He).
      apply key_eqb_false in Hnone. apply Hnone. now rewrite E.
  - destruct j as [n d on off ty tm].
    cbn [j_key j_name j_date j_onduty j_offduty j_type j_time].
    intros (Hg & [(e & He & E & -> & ->)|(Hnone & -> & ->)]);
      exists (n, d, on, off); (split; [assumption|]); cbn [fst snd].
    + left. exists e. split; [assumption|]. split; [|reflexivity].
      now apply key_eqb_true.
    + right. split; [|reflexivity]. intros e He.
      apply key_eqb_false. intros E. now apply (Hnone e He).
Qed.

Lemma general_final_info_rows WORKDAYS HOLIDAYS enddate df_att
    df_abnormal df_offwork grid out row :
  general_blank_dataframe WORKDAYS HOLIDAYS enddate df_att = Some grid ->
  general_final_info WORKDAYS HOLIDAYS enddate df_att df_abnormal df_offwork
  = Some out ->
  In row out <->
  In (r_key row) grid
  /\ punch_cells_from df_att (r_joined row)
  /\ exception_cells_from (df_abnormal ++ df_offwork) (r_joined row)
  /\ r_chidao row = _general_chidao (r_joined row)
  /\ r_abn row = _general_abnormal (r_joined row).
Proof.
  intros G E. unfold general_final_info in E. rewrite G in E.
  injection E as <-. rewrite in_map_iff. unfold punch_cells_from, r_key.
  split.
  - intros (j & <- & Hj). cbn [r_joined r_chidao r_abn].
    apply merge_abn_In in Hj. destruct Hj as [Hg He].
    apply merge_att_In in Hg. cbn [fst snd] in Hg. tauto.
  - destruct row as [j c a]. cbn [r_joined r_chidao r_abn].
    intros (Hk & Hp & He & -> & ->). exists j. split; [reflexivity|].
    apply merge_abn_In. split; [|assumption].
    apply merge_att_In. cbn [fst snd]. tauto.
Qed.

(** X9. What the rows of the reconciled table are: a row is in the table
    exactly when its key is a grid key, its punch times are those of a punch
    record with that key (or are both missing when there is none), its type
    and duration are those of an exception record with that key (or are both
    missing when there is none), and its two flags are the ones derived from
    these cells. *)
Theorem reconciled_rows :
  forall WORKDAYS HOLIDAYS enddate df_att df_abnormal df_offwork grid out,
    general_blank_dataframe WORKDAYS HOLIDAYS enddate df_att = Some grid ->
    general_final_info WORKDAYS HOLIDAYS enddate df_att df_abnormal df_offwork
    = Some out ->
    forall row,
      In row out <->
      In (r_key row) grid
      /\ punch_cells_from df_att (r_joined row)
      /\ exception_cells_from (df_abnormal ++ df_offwork) (r_joined row)
      /\ r_chidao row = _general_chidao (r_joined row)
      /\ r_abn row = _general_abnormal (r_joined row).
Proof.
  intros WORKDAYS HOLIDAYS enddate df_att df_abnormal df_offwork grid out
         G E row.
  unfold general_final_info in E. rewrite G in E.
  injection E as <-. rewrite in_map_iff. unfold punch_cells_from, r_key.
  split.
  - intros (j & <- & Hj). cbn [r_joined r_chidao r_abn].
    apply merge_abn_In in Hj. destruct Hj as [Hg He].
    apply merge_att_In in Hg. cbn [fst snd] in Hg. tauto.
  - destruct row as [j c a]. cbn [r_joined r_chidao r_abn].
    intros (Hk & Hp & He & -> & ->). exists j. split; [reflexivity|].
    apply merge_abn_In. split; [|assumption].
    apply merge_att_In. cbn [fst snd]. tauto.
Qed.

Lemma reconciled_rows_witness :
  In (mkRow (mkJoined "Alice" (of_date 2019 12 2) None None None None)
            None (Some ("12/02" ++ MARK_FULL_DAY)%string))
     [mkRow (mkJoined "Alice" (of_date 2019 12 2) None None None None)
            None (Some ("12/02" ++ MARK_FULL_DAY)%string)]
  <->
  In (r_key (mkRow (mkJoined "Alice" (of_date 2019 12 2) None None None None)
                   None (Some ("12/02" ++ MARK_FULL_DAY)%string)))
     [("Alice"%string, of_date 2019 12 2)]
  /\ punch_cells_from
       [mkAtt "Alice" (of_date 2019 12 3)
              (Some (make 2019 12 3 9 15 0)) (Some (make 2019 12 3 18 30 0))]
       (mkJoined "Alice" (of_date 2019 12 2) None None None None)
  /\ exception_cells_from ([] ++ [])
       (mkJoined "Alice" (of_date 2019 12 2) None None None None)
  /\ Some ("12/02" ++ MARK_FULL_DAY)%string
     = _general_abnormal
         (mkJoined "Alice" (of_date 2019 12 2) None None None None).
Proof.
  destruct (reconciled_rows [] [] (Some (of_date 2019 12 2))
              [mkAtt "Alice" (of_date 2019 12 3)
                     (Some (make 2019 12 3 9 15 0))
                     (Some (make 2019 12 3 18 30 0))]
              [] []
              [("Alice"%string, of_date 2019 12 2)]
              [mkRow (mkJoined "Alice" (of_date 2019 12 2) None None None None)
                     None (Some ("12/02" ++ MARK_FULL_DAY)%string)]
              eq_refl eq_refl
              (mkRow (mkJoined "Alice" (of_date 2019 12 2) None None None None)
                     None (Some ("12/02" ++ MARK_FULL_DAY)%string)))
    as [To From].
  split.
  - intros H. destruct (To H) as (K & P & X & _ & A). auto.
  - intros _. now left.
Defined.

Lemma filter_key_map {A : Type} (key : A -> string * Timestamp)
    (k : string * Timestamp) (l : list A) :
  List.length (filter (fun x => key_eqb k (key x)) l)
  = List.length (filter (key_eqb k) (map key l)).
Proof.
  induction l as [|x l IH]; [reflexivity|]. cbn [map filter].
  destruct (key_eqb k (key x)); cbn [List.length]; now rewrite IH.
Qed.

Lemma count_flat_map_repeat (c : string * Timestamp -> nat)
    (k : string * Timestamp) (l : list (string * Timestamp)) :
  NoDup l ->
  (In k l ->
   List.length (filter (key_eqb k) (flat_map (fun x => repeat x (c x)) l))
   = c k)
  /\ (~ In k l ->
      List.length (filter (key_eqb k) (flat_map (fun x => repeat x (c x)) l))
      = 0%nat).
Proof.
  induction 1 as [|x l Hx N [IH1 IH2]]; [split; [contradiction|reflexivity]|].
  cbn [flat_map]. rewrite filter_app, length_app.
  destruct (key_eqb_spec k x) as [->|D].
  - rewrite (forallb_filter_id (key_eqb x) (repeat x (c x))).
    + rewrite repeat_length. split.
      * intros _. rewrite (IH2 Hx). lia.
      * intros No. exfalso. apply No. now left.
    + apply forallb_forall. intros y Hy. apply repeat_spec in Hy. subst y.
      now apply key_eqb_true.
  - rewrite (filter_none (key_eqb k) (repeat x (c x))).
    + cbn [List.length Nat.add]. split.
      * intros [E|I]; [congruence|now apply IH1].
      * intros No. apply IH2. intros I. apply No. now right.
    + intros y Hy. apply repeat_spec in Hy. subst y.
      now apply key_eqb_false.
Qed.

Lemma general_final_info_count WORKDAYS HOLIDAYS enddate df_att
    df_abnormal df_offwork grid out k :
  general_blank_dataframe WORKDAYS HOLIDAYS enddate df_att = Some grid ->
  general_final_info WORKDAYS HOLIDAYS enddate df_att df_abnormal df_offwork
  = Some out ->
  (In k grid ->
   List.length (rows_at k out)
   = rows_per_key df_att (df_abnormal ++ df_offwork) k)
  /\ (~ In k grid -> rows_at k out = []).
Proof.
  intros G E.
  pose proof (general_final_info_keys WORKDAYS HOLIDAYS enddate df_att
                df_abnormal df_offwork) as Keys.
  rewrite E, G in Keys. injection Keys as Keys.
  assert (N : NoDup grid).
  { rewrite general_blank_dataframe_grid in G.
    destruct (resolve_max_date enddate df_att); [|discriminate].
    injection G as <-. apply grid_NoDup. }
  destruct (count_flat_map_repeat
              (rows_per_key df_att (df_abnormal ++ df_offwork)) k grid N)
    as [C1 C0].
  unfold rows_at. split; intros H.
  - rewrite (filter_key_map r_key), Keys. now apply C1.
  - apply length_zero_iff_nil.
    rewrite (filter_key_map r_key), Keys. now apply C0.
Qed.

(** X10. How many rows a grid key has in the reconciled table: the number of
    punch records with that key (one if there is none) times the number of
    exception records with that key (one if there is none). A key outside
    the grid has no row. *)
Theorem rows_per_grid_key :
  forall WORKDAYS HOLIDAYS enddate df_att df_abnormal df_offwork grid out k,
    general_blank_dataframe WORKDAYS HOLIDAYS enddate df_att = Some grid ->
    general_final_info WORKDAYS HOLIDAYS enddate df_att df_abnormal df_offwork
    = Some out ->
    (In k grid ->
     List.length (rows_at k out)
     = (Nat.max 1 (List.length
                     (filter (fun a => key_eqb k (att_key a)) df_att))
        * Nat.max 1 (List.length
                       (filter (fun e => key_eqb k (abn_key e))
                               (df_abnormal ++ df_offwork))))%nat)
    /\ (~ In k grid -> rows_at k out = []).
Proof.
  intros WORKDAYS HOLIDAYS enddate df_att df_abnormal df_offwork grid out k
         G E.
  exact (general_final_info_count WORKDAYS HOLIDAYS enddate df_att
           df_abnormal df_offwork grid out k G E).
Qed.

Lemma rows_per_grid_key_witness :
  (List.length
     (rows_at ("Alice"%string, of_date 2019 12 4)
        [mkRow (mkJoined "Alice" (of_date 2019 12 2) None None None None)
               None (Some ("12/02" ++ MARK_FULL_DAY)%string);
         mkRow (mkJoined "Alice" (of_date 2019 12 3) None None None None)
               None (Some ("12/03" ++ MARK_FULL_DAY)%string);
         mkRow (mkJoined "Alice" (of_date 2019 12 4) None None
                         (Some "training"%string) (Some (Q2Qc 4)))
               None None;
         mkRow (mkJoined "Alice" (of_date 2019 12 4) None None
                         (Some "leave"%string) (Some (Q2Qc 4)))
               None None])
   = (Nat.max 1
        (List.length
           (filter (fun a => key_eqb ("Alice"%string, of_date 2019 12 4)
                                     (att_key a))
                   [mkAtt "Alice" (of_date 2019 12 5) None None]))
      * Nat.max 1
          (List.length
             (filter (fun e => key_eqb ("Alice"%string, of_date 2019 12 4)
                                       (abn_key e))
                     ([mkAbn "Alice" (of_date 2019 12 4) "training"
                             (Some (Q2Qc 4))]
                      ++ [mkAbn "Alice" (of_date 2019 12 4) "leave"
                                (Some (Q2Qc 4))]))))%nat).
Proof.
  apply (proj1 (rows_per_grid_key [] [] (Some (of_date 2019 12 4))
                  [mkAtt "Alice" (of_date 2019 12 5) None None]
                  [mkAbn "Alice" (of_date 2019 12 4) "training" (Some (Q2Qc 4))]
                  [mkAbn "Alice" (of_date 2019 12 4) "leave" (Some (Q2Qc 4))]
                  [("Alice"%string, of_date 2019 12 2);
                   ("Alice"%string, of_date 2019 12 3);
                   ("Alice"%string, of_date 2019 12 4)]
                  _ ("Alice"%string, of_date 2019 12 4)
                  eq_refl eq_refl)).
  right. right. left. reflexivity.
Defined.

Lemma flags_of_joined j :
  (j_type j <> None -> _general_chidao j = None /\ _general_abnormal j = None)
  /\ (j_onduty j <> None -> j_offduty j <> None ->
      _general_chidao j = None \/ _general_abnormal j = None)
  /\ (forall s, _general_chidao j = Some s ->
        exists t, (j_onduty j = Some t \/ j_offduty j = Some t)
                  /\ s = strftime_md_HM t
                  /\ j_onduty j <> j_offduty j).
Proof.
  unfold _general_chidao, _general_abnormal.
  destruct (j_type j) as [ty|]; cbn [is_missing negb].
  { split; [auto|]. split; [auto|]. discriminate. }
  split; [congruence|].
  destruct (j_onduty j) as [on|], (j_offduty j) as [off|];
    cbn [ts_eq is_missing orb field_gt field_eq field_lt option_map andb].
  - split.
    + intros _ _. destruct (on =? off); auto.
    + intros s. destruct (Z.eqb_spec on off) as [->|D]; [discriminate|].
      destruct ((9 <? hour on) || (hour on =? 9) && (0 <? minute on)).
      * intros [= <-]. exists on. split; [auto|]. split; congruence.
      * destruct (hour off <? 18); [|discriminate].
        intros [= <-]. exists off. split; [auto|]. split; congruence.
  - split; [congruence|]. intros s.
    destruct ((9 <? hour on) || (hour on =? 9) && (0 <? minute on));
      [|discriminate].
    intros [= <-]. exists on. split; [auto|]. split; congruence.
  - split; [congruence|]. intros s.
    destruct (hour off <? 18); [|discriminate].
    intros [= <-]. exists off. split; [auto|]. split; congruence.
  - split; [congruence|]. discriminate.
Qed.

(** X11. The two flags of a row of the reconciled table: with an exception
    type both are null; when both punch times are present at most one of
    them is set; and a late / early flag is always the formatted on-duty or
    off-duty time of the row, on a row whose two punch times differ. *)
Theorem reconciled_flags :
  forall WORKDAYS HOLIDAYS enddate df_att df_abnormal df_offwork out row,
    general_final_info WORKDAYS HOLIDAYS enddate df_att df_abnormal df_offwork
    = Some out ->
    In row out ->
    (j_type (r_joined row) <> None -> r_chidao row = None /\ r_abn row = None)
    /\ (j_onduty (r_joined row) <> None -> j_offduty (r_joined row) <> None ->
        r_chidao row = None \/ r_abn row = None)
    /\ (forall s, r_chidao row = Some s ->
          exists t, (j_onduty (r_joined row) = Some t
                     \/ j_offduty (r_joined row) = Some t)
                    /\ s = strftime_md_HM t
                    /\ j_onduty (r_joined row) <> j_offduty (r_joined row)).
Proof.
  intros WORKDAYS HOLIDAYS enddate df_att df_abnormal df_offwork out row E H.
  unfold general_final_info in E.
  destruct (general_blank_dataframe WORKDAYS HOLIDAYS enddate df_att)
    as [grid|]; [|discriminate].
  injection E as <-. apply in_map_iff in H. destruct H as (j & <- & _).
  cbn [r_joined r_chidao r_abn]. apply flags_of_joined.
Qed.

Lemma reconciled_flags_witness :
  (j_type (mkJoined "Alice" (of_date 2019 12 2)
                    (Some (make 2019 12 2 9 15 0))
                    (Some (make 2019 12 2 17 30 0)) None None) <> None ->
   Some "12/02-09:15"%string = None /\ @None string = None)
  /\ (Some (make 2019 12 2 9 15 0) <> None ->
      Some (make 2019 12 2 17 30 0) <> None ->
      Some "12/02-09:15"%string = None \/ @None string = None)
  /\ (forall s, Some "12/02-09:15"%string = Some s ->
        exists t, (Some (make 2019 12 2 9 15 0) = Some t
                   \/ Some (make 2019 12 2 17 30 0) = Some t)
                  /\ s = strftime_md_HM t
                  /\ Some (make 2019 12 2 9 15 0)
                     <> Some (make 2019 12 2 17 30 0)).
Proof.
  apply (reconciled_flags [] [] (Some (of_date 2019 12 2))
           [mkAtt "Alice" (of_date 2019 12 2)
                  (Some (make 2019 12 2 9 15 0))
                  (Some (make 2019 12 2 17 30 0))]
           [] []
           [mkRow (mkJoined "Alice" (of_date 2019 12 2)
                            (Some (make 2019 12 2 9 15 0))
                            (Some (make 2019 12 2 17 30 0)) None None)
                  (Some "12/02-09:15"%string) None]
           (mkRow (mkJoined "Alice" (of_date 2019 12 2)
                            (Some (make 2019 12 2 9 15 0))
                            (Some (make 2019 12 2 17 30 0)) None None)
                  (Some "12/02-09:15"%string) None)).
  - vm_compute. reflexivity.
  - now left.
Defined.

(** X12. A grid cell with no punch record and no exception record is
    reported once, as a full day without punch: its only row has missing
    punch times, no exception, no late / early flag and the full-day marker
    with the date of the cell. *)
Theorem unmatched_cell_full_day :
  forall WORKDAYS HOLIDAYS enddate df_att df_abnormal df_offwork grid out
         name date,
    general_blank_dataframe WORKDAYS HOLIDAYS enddate df_att = Some grid ->
    general_final_info WORKDAYS HOLIDAYS enddate df_att df_abnormal df_offwork
    = Some out ->
    In (name, date) grid ->
    (forall a, In a df_att -> att_key a <> (name, date)) ->
    (forall e, In e (df_abnormal ++ df_offwork) -> abn_key e <> (name, date)) ->
    rows_at (name, date) out
    = [mkRow (mkJoined name date None None None None)
             None (Some (strftime_md date ++ MARK_FULL_DAY)%string)].
Proof.
  intros WORKDAYS HOLIDAYS enddate df_att df_abnormal df_offwork grid out
         name date G E Hk Hatt Habn.
  destruct (general_final_info_count WORKDAYS HOLIDAYS enddate df_att
              df_abnormal df_offwork grid out (name, date) G E) as [Count _].
  specialize (Count Hk).
  assert (One : rows_per_key df_att (df_abnormal ++ df_offwork) (name, date)
                = 1%nat).
  { apply rows_per_key_one. split.
    - rewrite filter_none; [cbn; lia|]. intros a Ha.
      apply key_eqb_false. intros K. now apply (Hatt a Ha).
    - rewrite filter_none; [cbn; lia|]. intros e He.
      apply key_eqb_false. intros K. now apply (Habn e He). }
  rewrite One in Count.
  destruct (rows_at (name, date) out) as [|row [|row' rest]] eqn:R;
    try discriminate Count.
  f_equal.
  assert (Hrow : In row (rows_at (name, date) out)) by (rewrite R; now left).
  unfold rows_at in Hrow. apply filter_In in Hrow. destruct Hrow as [Hin Hkey].
  apply key_eqb_true in Hkey.
  apply (general_final_info_rows WORKDAYS HOLIDAYS enddate df_att
           df_abnormal df_offwork grid out row G E) in Hin.
  destruct Hin as (_ & Hp & He & Hc & Ha).
  destruct row as [[n d on off ty tm] c a].
  unfold r_key, j_key in Hkey.
  cbn [r_joined r_chidao r_abn j_name j_date] in *.
  injection Hkey as <- <-.
  destruct Hp as [(p & Hp & Kp & _)|(_ & Eon & Eoff)];
    [exfalso; now apply (Hatt p Hp)|].
  destruct He as [(e & He & Ke & _)|(_ & Ety & Etm)];
    [exfalso; now apply (Habn e He)|].
  cbn [j_onduty j_offduty j_type j_time] in *. subst on off ty tm.
  rewrite Hc, Ha. reflexivity.
Qed.

Lemma unmatched_cell_full_day_witness :
  rows_at ("Alice"%string, of_date 2019 12 2)
    [mkRow (mkJoined "Alice" (of_date 2019 12 2) None None None None)
           None (Some ("12/02" ++ MARK_FULL_DAY)%string);
     mkRow (mkJoined "Alice" (of_date 2019 12 3)
                     (Some (make 2019 12 3 8 20 53))
                     (Some (make 2019 12 3 18 4 51)) None None)
           None None]
  = [mkRow (mkJoined "Alice" (of_date 2019 12 2) None None None None)
           None
           (Some (strftime_md (of_date 2019 12 2) ++ MARK_FULL_DAY)%string)].
Proof.
  apply (unmatched_cell_full_day [] [] (Some (of_date 2019 12 3))
           [mkAtt "Alice" (of_date 2019 12 3)
                  (Some (make 2019 12 3 8 20 53))
                  (Some (make 2019 12 3 18 4 51))]
           [] []
           [("Alice"%string, of_date 2019 12 2);
            ("Alice"%string, of_date 2019 12 3)]).
  - vm_compute. reflexivity.
  - vm_compute. reflexivity.
  - now left.
  - intros a [<-|[]]. vm_compute. discriminate.
  - intros e [].
Defined.

(** ** Punch records outside the grid, and the end date *)

Lemma drop_duplicates_skip_seen {A : Type} (eqb : A -> A -> bool)
    (l1 l2 : list A) (x : A) :
  (forall a b, reflect (a = b) (eqb a b)) ->
  In x l1 ->
  drop_duplicates eqb (l1 ++ x :: l2) = drop_duplicates eqb (l1 ++ l2).
Proof.
  intros Heq Hx. unfold drop_duplicates.
  rewrite !(drop_duplicates_from_app eqb). f_equal. cbn [drop_duplicates_from].
  assert (S : existsb (eqb x) (rev (drop_duplicates_from eqb [] l1) ++ [])
              = true).
  { apply (existsb_eqb_In eqb Heq). apply in_or_app. left.
    apply in_rev. rewrite rev_involutive.
    apply (drop_duplicates_from_In eqb Heq). auto. }
  now rewrite S.
Qed.

(** X13. A punch record dated outside the grid (another month, after the end
    date, a weekend or a holiday) only counts for the roster: when its
    employee already has an earlier punch record and the end date in force
    stays the same, the reconciled table is the same with and without it. *)
Theorem off_grid_punch_ignored :
  forall WORKDAYS HOLIDAYS enddate before record after df_abnormal df_offwork,
    resolve_max_date enddate (before ++ record :: after)
    = resolve_max_date enddate (before ++ after) ->
    In (att_name record) (map att_name before) ->
    (forall grid,
       general_blank_dataframe WORKDAYS HOLIDAYS enddate (before ++ after)
       = Some grid ->
       ~ In (att_key record) grid) ->
    general_final_info WORKDAYS HOLIDAYS enddate (before ++ record :: after)
                       df_abnormal df_offwork
    = general_final_info WORKDAYS HOLIDAYS enddate (before ++ after)
                         df_abnormal df_offwork.
Proof.
  intros WORKDAYS HOLIDAYS enddate before record after df_abnormal df_offwork
         Hres Hname Hoff.
  assert (G : general_blank_dataframe WORKDAYS HOLIDAYS enddate
                (before ++ record :: after)
              = general_blank_dataframe WORKDAYS HOLIDAYS enddate
                  (before ++ after)).
  { rewrite !general_blank_dataframe_grid, Hres.
    destruct (resolve_max_date enddate (before ++ after)); [|reflexivity].
    rewrite !map_app. cbn [map].
    now rewrite (drop_duplicates_skip_seen String.eqb _ _ _ String.eqb_spec). }
  unfold general_final_info. rewrite G.
  destruct (general_blank_dataframe WORKDAYS HOLIDAYS enddate (before ++ after))
    as [grid|] eqn:E; [|reflexivity].
  cbv zeta. f_equal. f_equal. f_equal.
  unfold merge_att. apply merge_left_drop.
  intros k Hk. apply key_eqb_false. intros K.
  apply (Hoff grid eq_refl). now rewrite <- K.
Qed.

Lemma off_grid_punch_ignored_witness :
  general_final_info [] [] (Some (of_date 2019 12 4))
    ([mkAtt "Alice" (of_date 2019 12 4)
            (Some (make 2019 12 4 8 20 53)) (Some (make 2019 12 4 18 4 51))]
     ++ mkAtt "Alice" (of_date 2019 12 7)
              (Some (make 2019 12 7 10 0 0)) (Some (make 2019 12 7 12 0 0))
        :: [])
    [] []
  = general_final_info [] [] (Some (of_date 2019 12 4))
      ([mkAtt "Alice" (of_date 2019 12 4)
              (Some (make 2019 12 4 8 20 53)) (Some (make 2019 12 4 18 4 51))]
       ++ [])
      [] [].
Proof.
  apply off_grid_punch_ignored.
  - reflexivity.
  - now left.
  - intros grid G. vm_compute in G. injection G as <-.
    vm_compute. intros H.
    repeat (destruct H as [H|H]; [discriminate H|]). exact H.
Defined.

(** ** The summary *)

Lemma groupby_keys df :
  map fst (groupby_name_stat df)
  = sort_strings (drop_duplicates String.eqb (map r_name df)).
Proof.
  unfold groupby_name_stat. rewrite map_map. cbn [fst]. apply map_id.
Qed.






Lemma insert_sorted_HdRel (x s : string) (l : list string) :
  String.leb x s = true ->
  HdRel (fun a b => String.leb a b = true) x l ->
  HdRel (fun a b => String.leb a b = true) x (insert_sorted s l).
Proof.
  intros Hxs H. destruct l as [|y ys]; cbn [insert_sorted].
  - now constructor.
  - destruct (String.leb s y); constructor; [assumption|].
    now inversion H.
Qed.

Lemma insert_sorted_Sorted (s : string) (l : list string) :
  Sorted (fun a b => String.leb a b = true) l ->
  Sorted (fun a b => String.leb a b = true) (insert_sorted s l).
Proof.
  induction 1 as [|x l S IH H]; cbn [insert_sorted].
  - repeat constructor.
  - destruct (String.leb s x) eqn:L.
    + constructor; [now constructor|]. now constructor.
    + constructor; [exact IH|].
      apply insert_sorted_HdRel; [|exact H].
      destruct (String.leb_total s x) as [T|T]; congruence.
Qed.

(** X16. The records of the summary come in ascending order of the employee
    names (the order of [groupby]), whatever the order of the rows of the
    reconciled table. *)
Theorem summary_sorted_by_name :
  forall df_data,
    Sorted (fun a b => String.leb a b = true)
           (map fst (groupby_name_stat df_data)).
Proof.
  intros df_data. rewrite groupby_keys. unfold sort_strings.
  induction (drop_duplicates String.eqb (map r_name df_data)) as [|s l IH];
    cbn [fold_right]; [constructor|].
  now apply insert_sorted_Sorted.
Qed.





Lemma strftime_md_not_empty t s : (strftime_md t ++ s)%string <> ""%string.
Proof. discriminate. Qed.




(** ** File lookup *)

Lemma prefix_spec (n h : string) :
  String.prefix n h = true <-> exists after, h = (n ++ after)%string.
Proof.
  revert h. induction n as [|a n IH]; intros h.
  - simpl. destruct h; split; eauto.
  - destruct h as [|b h]; simpl.
    + split; [discriminate|]. intros (after & E). discriminate E.
    + destruct (ascii_dec a b) as [->|D].
      * rewrite IH. split; intros (after & E); exists after; congruence.
      * split; [discriminate|]. intros (after & E). congruence.
Qed.

Lemma contains_spec (n h : string) : contains n h = true <-> occurs_in n h.
Proof.
  unfold occurs_in. split.
  - induction h as [|c h IH]; cbn [contains]; rewrite orb_true_iff.
    + intros [P|F]; [|discriminate]. apply prefix_spec in P.
      destruct P as (after & E). exists ""%string, after. exact E.
    + intros [P|C].
      * apply prefix_spec in P. destruct P as (after & E).
        exists ""%string, after. exact E.
      * destruct (IH C) as (before & after & ->).
        exists (String c before), after. reflexivity.
  - intros (before & after & ->).
    induction before as [|c before IH].
    + cbn [append].
      assert (P : String.prefix n (n ++ after) = true)
        by (apply prefix_spec; eauto).
      destruct (n ++ after)%string; cbn [contains]; now rewrite P.
    + cbn [append contains]. rewrite IH. apply orb_true_r.
Qed.

Lemma find_first {A : Type} (p : A -> bool) (l : list A) (x : A) :
  find p l = Some x ->
  exists before after,
    l = before ++ x :: after /\ p x = true
    /\ forall y, In y before -> p y = false.
Proof.
  induction l as [|y l IH]; cbn [find]; [discriminate|].
  destruct (p y) eqn:P.
  - intros [= <-]. exists [], l. split; [reflexivity|]. split; [exact P|].
    contradiction.
  - intros E. destruct (IH E) as (before & after & -> & Px & Hb).
    exists (y :: before), after. split; [reflexivity|]. split; [exact Px|].
    intros z [<-|Hz]; [exact P|now apply Hb].
Qed.

(** X18. [findfile_byname] gives nothing when the directory is missing or no
    name of the listing contains the marker; otherwise it gives the path of
    the first name, in listing order, that contains the marker: later names
    that contain it too are not looked at. *)
Theorem findfile_byname_first_match :
  forall (path_join : string -> string -> string) listing abspath find_str,
    (findfile_byname path_join listing abspath find_str = None <->
     listing = None
     \/ exists files,
          listing = Some files
          /\ forall f, In f files -> ~ occurs_in find_str f)
    /\ (forall p,
          findfile_byname path_join listing abspath find_str = Some p ->
          exists before filename after,
            listing = Some (before ++ filename :: after)
            /\ p = path_join abspath filename
            /\ occurs_in find_str filename
            /\ forall f, In f before -> ~ occurs_in find_str f).
Proof.
  intros path_join listing abspath find_str. unfold findfile_byname.
  destruct listing as [files|].
  - destruct (find (contains find_str) files) as [filename|] eqn:F.
    + split.
      * split; [discriminate|].
        intros [E|(files' & [= <-] & H)]; [discriminate|].
        apply find_some in F. destruct F as [Hin C].
        apply contains_spec in C. now apply H in Hin.
      * intros p [= <-]. apply find_first in F.
        destruct F as (before & after & -> & C & Hb).
        exists before, filename, after. split; [reflexivity|].
        split; [reflexivity|]. split; [now apply contains_spec|].
        intros f Hf O. apply contains_spec in O.
        rewrite (Hb f Hf) in O. discriminate.
    + split; [|discriminate]. split; [|reflexivity].
      intros _. right. exists files. split; [reflexivity|].
      intros f Hf O. apply contains_spec in O.
      pose proof (find_none _ _ F f Hf) as N. congruence.
  - split; [|discriminate]. split; [auto|reflexivity].
Qed.

(** ** The leave reader *)

Section LeaveFacts.

Variable HOLIDAY_TYPE : string -> option string.

Lemma lookup_types_None (df : list AbnRow) :
  lookup_types HOLIDAY_TYPE df = None <->
  exists row, In row df /\ HOLIDAY_TYPE (abn_type row) = None.
Proof.
  induction df as [|row df IH]; cbn [lookup_types].
  - split; [discriminate|]. intros (row & [] & _).
  - destruct (HOLIDAY_TYPE (abn_type row)) as [description|] eqn:E.
    + destruct (lookup_types HOLIDAY_TYPE df) as [rows|].
      * split; [discriminate|]. intros (r & [<-|Hr] & N); [congruence|].
        assert (F : Some rows = None) by (apply (proj2 IH); eauto).
        discriminate F.
      * split; [|reflexivity]. intros _.
        destruct (proj1 IH eq_refl) as (r & Hr & N). exists r. split; auto.
        now right.
    + split; [|reflexivity]. intros _. exists row. split; [now left|exact E].
Qed.

Lemma lookup_types_Some (df out : list AbnRow) :
  lookup_types HOLIDAY_TYPE df = Some out ->
  Forall2 (fun row x =>
             abn_name x = abn_name row /\ abn_date x = abn_date row
             /\ HOLIDAY_TYPE (abn_type row) = Some (abn_type x)
             /\ abn_time x = abn_time row)
          df out.
Proof.
  revert out. induction df as [|row df IH]; intros out; cbn [lookup_types].
  - intros [= <-]. constructor.
  - destruct (HOLIDAY_TYPE (abn_type row)) as [description|] eqn:E;
      [|discriminate].
    destruct (lookup_types HOLIDAY_TYPE df) as [rows|]; [|discriminate].
    intros [= <-]. constructor; [|now apply IH].
    cbn. auto.
Qed.

End LeaveFacts.

(** X19. The leave reader fails exactly when the code of some leave row is
    not a key of the lookup table, wherever that row stands. When it
    succeeds it gives one row per leave row, in order, with the same name
    and date, the description of the code as type and eight times the days
    as hours (a missing duration stays missing). *)
Theorem read_offwork_info_spec :
  forall (HOLIDAY_TYPE : string -> option string) df,
    df <> [] ->
    (read_offwork_info HOLIDAY_TYPE df = None <->
     exists row, In row df /\ HOLIDAY_TYPE (off_type row) = None)
    /\ (forall out,
          read_offwork_info HOLIDAY_TYPE df = Some out ->
          Forall2 (fun row x =>
                     abn_name x = off_name row /\ abn_date x = off_date row
                     /\ HOLIDAY_TYPE (off_type row) = Some (abn_type x)
                     /\ abn_time x
                        = option_map (fun t => t * Q2Qc 8)%Qc (off_time row))
                  df out).
Proof.
  intros HOLIDAY_TYPE df _. unfold read_offwork_info. cbv zeta.
  rewrite map_map. cbn [abn_name abn_date abn_type abn_time].
  split.
  - rewrite lookup_types_None. split.
    + intros (x & Hx & N). apply in_map_iff in Hx.
      destruct Hx as (row & <- & Hr). exists row. auto.
    + intros (row & Hr & N).
      exists (mkAbn (off_name row) (off_date row) (off_type row)
                    (option_map (fun t => t * Q2Qc 8)%Qc (off_time row))).
      split; [|exact N].
      apply in_map_iff. exists row. auto.
  - intros out E. apply lookup_types_Some in E.
    remember (map _ df) as l eqn:El. revert df El.
    induction E as [|x y l out H E IH]; intros df El.
    + destruct df; [constructor|discriminate].
    + destruct df as [|row df]; [discriminate|].
      cbn [map] in El. injection El as -> ->.
      constructor; [|now apply IH]. exact H.
Qed.

Lemma read_offwork_info_spec_witness :
  read_offwork_info
    (fun code => if String.eqb code "9700" then Some "personal leave"%string
                 else None)
    [mkOff "Alice" "9700" (of_date 2019 12 12) (of_date 2019 12 12)
           (Some (Q2Qc 1));
     mkOff "Bob" "1234" (of_date 2019 12 13) (of_date 2019 12 13)
           (Some (Q2Qc 1))]
  = None
  <-> exists row,
        In row
           [mkOff "Alice" "9700" (of_date 2019 12 12) (of_date 2019 12 12)
                  (Some (Q2Qc 1));
            mkOff "Bob" "1234" (of_date 2019 12 13) (of_date 2019 12 13)
                  (Some (Q2Qc 1))]
        /\ (fun code => if String.eqb code "9700"
                        then Some "personal leave"%string else None)
             (off_type row) = None.
Proof.
  apply (read_offwork_info_spec
           (fun code => if String.eqb code "9700"
                        then Some "personal leave"%string else None)).
  discriminate.
Defined.

Example read_offwork_info_one_day :
  read_offwork_info
    (fun code => if String.eqb code "9700" then Some "personal leave"%string
                 else None)
    [mkOff "Alice" "9700" (of_date 2019 12 12) (of_date 2019 12 12)
           (Some (Q2Qc 1))]
  = Some [mkAbn "Alice" (of_date 2019 12 12) "personal leave"
                (Some (Q2Qc 8))].
Proof. vm_compute. reflexivity. Qed.

(** ** Exceptions and flags, end to end *)

Lemma exception_cell_suppresses WORKDAYS HOLIDAYS enddate df_att
    df_abnormal df_offwork out e row :
  general_final_info WORKDAYS HOLIDAYS enddate df_att df_abnormal df_offwork
  = Some out ->
  In e (df_abnormal ++ df_offwork) ->
  In row out -> r_key row = abn_key e ->
  j_type (r_joined row) <> None /\ r_chidao row = None /\ r_abn row = None.
Proof.
  intros E He Hrow Hkey.
  destruct (general_blank_dataframe WORKDAYS HOLIDAYS enddate df_att)
    as [grid|] eqn:G;
    [|unfold general_final_info in E; rewrite G in E; discriminate].
  apply (general_final_info_rows WORKDAYS HOLIDAYS enddate df_att
           df_abnormal df_offwork grid out row G E) in Hrow.
  destruct Hrow as (_ & _ & Hx & Hc & Ha).
  assert (T : j_type (r_joined row) <> None).
  { destruct Hx as [(e' & _ & _ & -> & _)|(Hnone & _)]; [discriminate|].
    exfalso. apply (Hnone e He). symmetry. exact Hkey. }
  split; [exact T|].
  destruct (flags_of_joined (r_joined row)) as (F & _).
  rewrite Hc, Ha. now apply F.
Qed.

(** X20. An exception record silences its grid cell: every row of the cell
    carries an exception type and neither flag. Through the splitter this
    holds for each following weekday of an anomaly of more than 8 hours as
    well: whatever was punched on those days, they are not reported late,
    early or without punch. *)
Theorem exception_silences_cell :
  forall WORKDAYS HOLIDAYS enddate df_att raw_abnormal df_offwork out,
    general_final_info WORKDAYS HOLIDAYS enddate df_att
                       (read_abnormal_info raw_abnormal) df_offwork
    = Some out ->
    (forall e row,
       In e (read_abnormal_info raw_abnormal ++ df_offwork) ->
       In row out -> r_key row = abn_key e ->
       j_type (r_joined row) <> None
       /\ r_chidao row = None /\ r_abn row = None)
    /\ (forall record (time : Qc) k row,
          In record raw_abnormal ->
          abn_time record = Some time -> (8 < time)%Q ->
          0 <= k <= ceil_div_8 time - 1 ->
          In row out ->
          r_key row
          = (abn_name record, get_next_workday (abn_date record) k) ->
          j_type (r_joined row) <> None
          /\ r_chidao row = None /\ r_abn row = None).
Proof.
  intros WORKDAYS HOLIDAYS enddate df_att raw_abnormal df_offwork out E.
  split.
  - intros e row He Hrow Hkey.
    now apply (exception_cell_suppresses WORKDAYS HOLIDAYS enddate df_att
                 (read_abnormal_info raw_abnormal) df_offwork out e row).
  - intros record time k row Hrec Ht Hlong Hk Hrow Hkey.
    apply (exception_cell_suppresses WORKDAYS HOLIDAYS enddate df_att
             (read_abnormal_info raw_abnormal) df_offwork out
             (mkAbn (abn_name record)
                    (get_next_workday (abn_date record) k)
                    (abn_type record)
                    (if k =? 0 then abn_time record else None))
             row E); [|exact Hrow|exact Hkey].
    apply in_or_app. left. apply read_abnormal_info_In.
    exists record. split; [exact Hrec|].
    unfold split_record. rewrite Ht.
    assert (B : Qle_bool time 8 = false).
    { apply not_true_is_false. intros L. apply Qle_bool_iff in L.
      now apply Qlt_not_le in Hlong. }
    rewrite B. cbn [negb].
    destruct (Z.eqb_spec k 0) as [->|N].
    + left. destruct record. cbn in Ht. subst. reflexivity.
    + right. apply following_days_In. exists k. split; [lia|reflexivity].
Qed.

Lemma exception_silences_cell_witness :
  j_type (mkJoined "Alice" (of_date 2019 12 13)
                   (Some (make 2019 12 13 9 30 0))
                   (Some (make 2019 12 13 17 0 0))
                   (Some "training"%string) None) <> None
  /\ @None string = None /\ @None string = None.
Proof.
  apply (proj2 (exception_silences_cell [] [] (Some (of_date 2019 12 13))
                  [mkAtt "Alice" (of_date 2019 12 13)
                         (Some (make 2019 12 13 9 30 0))
                         (Some (make 2019 12 13 17 0 0))]
                  [mkAbn "Alice" (of_date 2019 12 12) "training"
                         (Some (Q2Qc 16))]
                  [] _ eq_refl)
           (mkAbn "Alice" (of_date 2019 12 12) "training" (Some (Q2Qc 16)))
           (Q2Qc 16) 1
           (mkRow (mkJoined "Alice" (of_date 2019 12 13)
                            (Some (make 2019 12 13 9 30 0))
                            (Some (make 2019 12 13 17 0 0))
                            (Some "training"%string) None)
                  None None)).
  - now left.
  - reflexivity.
  - reflexivity.
  - vm_compute. split; discriminate.
  - vm_compute. do 9 right. now left.
  - reflexivity.
Defined.
